(** * go-api-controller: the [Route] type (route.go)

    A shallow embedding of [route.go] of package [controller]: the
    [Route] struct, its accessors and setters, [register] and the dispatch
    entry point [handleRequest].

    Go objects that are shared live in a store indexed by addresses: the
    [Route] and [Router] structs, reached through pointers, and the engine
    behind the adapter, which all routers of an application share.  A
    method with receiver [self *Route] takes the address [self] and reads
    and writes the store at it.  An address at which the store holds
    nothing plays the part of Go's [nil]: a field access through it, or a
    method call on it, panics.  The handle in [fwRoute] and the function in
    [controllerFn] are values, options with [None] for [nil].  Go's [int]
    is embedded as [Z]: the code only assigns and compares status codes,
    it computes nothing with them. *)

From stdpp Require Import base option list gmap strings.
From Stdlib Require Import ZArith.

Local Open Scope Z_scope.

(** ** Addresses *)

Definition loc := nat.

(** ** Panics *)

Inductive panic : Set :=
| NilPointer      (* field access through a nil pointer *)
| NilInterface    (* method call on a nil interface value *)
| NilFunc         (* call of a nil function value *)
| InCallee.       (* raised inside the adapter or inside the controller *)

Inductive value (A : Type) : Type :=
| Val (a : A)
| Panic (p : panic).
Arguments Val {A} a.
Arguments Panic {A} p.

(** A panic that comes out of a call into the adapter or into a controller
    is recorded as [InCallee], whatever raised it there. *)
Definition fromCallee {A : Type} (v : value A) : value A :=
  match v with
  | Val a => Val a
  | Panic _ => Panic InCallee
  end.

(** The handler that [register] hands to the engine is the method value
    [self.handleRequest]: it is bound to the pointer [self], not to a copy
    of the struct. *)
Inductive handler : Set :=
| HandleRequestOf (self : loc).

(** ** The adapter interfaces *)

(** The types the package leaves open: the non-nil function values of
    type [ControllerFn], the values that implement [FrameworkRoute], the
    state of the engine behind a [FrameworkRouter], [http.ResponseWriter],
    [*http.Request], and the state of the application. *)
Class Host : Type := {
  Fn : Type;
  Handle : Type;
  Engine : Type;
  Writer : Type;
  Request : Type;
  AppState : Type
}.

(** Modelled from the spec: the declaration of [FrameworkRoute] is not in
    route.go; the signature is that of the adapter boundary,
    [RouteVars(request) -> map[string]string].  A call may panic. *)
Class FrameworkRoute `{Host} := {
  fwRouteVars : Handle -> Request -> value (gmap string string)
}.

(** Modelled from the spec: the declaration of [FrameworkRouter] is not
    in route.go; the signature is that of the adapter boundary,
    [NewRoute(method, path, handler) -> FrameworkRoute].  [NewRoute] works
    on the state of the engine behind the adapter and returns the new
    engine state with a handle, which is an interface value and may be
    nil; it may panic. *)
Class FrameworkRouter `{Host} := {
  fwNewRoute :
    string -> string -> handler -> Engine -> Engine * value (option Handle)
}.

(** ** Data model *)

Section Controller.

Context `{host : Host}.
Context {adapterRoute : FrameworkRoute}.
Context {adapterRouter : FrameworkRouter}.

(** route.go:5-13.  [controllerFn] holds a function value of type
    [ControllerFn] ([None] is the nil function), [fwRoute] an interface
    value ([None] is the nil interface), [router] the address of the owning
    [Router]. *)
Record Route : Type := mkRoute {
  fwRoute : option Handle;
  router : loc;
  method : string;
  path : string;
  fullPath : string;
  defaultStatus : Z;
  controllerFn : option Fn
}.

(** Modelled from the spec: the declaration of [Router] is not in
    route.go, which only reads [router.fwRouter].  [fwRouter] is the
    address of the shared adapter instance (an address without an engine
    is the nil interface), [prefix] the path prefix. *)
Record Router : Type := mkRouter {
  fwRouter : loc;
  prefix : string
}.

(** Modelled from the spec: [newResponseWriter] and [newContextForRequest]
    are not in route.go.  The response wrapper carries the raw writer and
    the status it was seeded with; the request context associates the
    wrapper, the raw request and the matched route. *)
Record responseWriter : Type := mkResponseWriter {
  rwWriter : Writer;
  rwStatus : Z
}.

Record RequestContext : Type := mkRequestContext {
  ctxWriter : responseWriter;
  ctxRequest : Request;
  ctxRoute : loc
}.

Definition newResponseWriter (w : Writer) (status : Z) : responseWriter :=
  mkResponseWriter w status.

Definition newContextForRequest (rw : responseWriter) (r : Request) (route : loc)
  : RequestContext :=
  mkRequestContext rw r route.

(** The store: the [Route] and [Router] structs by address, the engines
    behind the adapters by address, and the state of the application. *)
Record World : Type := mkWorld {
  routes : gmap loc Route;
  routers : gmap loc Router;
  engines : gmap loc Engine;
  app : AppState
}.

(** The calls route.go makes into code outside of it. *)
Inductive Call : Type :=
| CallNewRoute (adapter : loc) (m p : string) (h : handler)
| CallRouteVars (fr : Handle) (r : Request)
| CallControllerFn (fn : Fn) (ctx : RequestContext).

(** ** The monad of Go method bodies: store, panics, and a log of calls *)

Record outcome (A : Type) : Type := mkOutcome {
  ret : value A;
  final : World;
  calls : list Call
}.
Arguments mkOutcome {A} ret final calls.
Arguments ret {A} o.
Arguments final {A} o.
Arguments calls {A} o.

Definition M (A : Type) : Type := World -> outcome A.

Definition mreturn {A} (a : A) : M A := fun σ => mkOutcome (Val a) σ [].

Definition bind {A B} (m : M A) (f : A -> M B) : M B := fun σ =>
  let o := m σ in
  match ret o with
  | Val a =>
      let o' := f a (final o) in
      mkOutcome (ret o') (final o') (calls o ++ calls o')
  | Panic p => mkOutcome (Panic p) (final o) (calls o)
  end.

#[global] Instance M_ret : MRet M := @mreturn.
#[global] Instance M_bind : MBind M := fun A B f m => bind m f.

(** The store with the struct at [self] replaced, and with the engine at
    [fw] replaced. *)
Definition setRoute (self : loc) (r : Route) (σ : World) : World :=
  mkWorld (<[self := r]> (routes σ)) (routers σ) (engines σ) (app σ).

Definition setEngine (fw : loc) (e : Engine) (σ : World) : World :=
  mkWorld (routes σ) (routers σ) (<[fw := e]> (engines σ)) (app σ).

(** [*self] for a [*Route]. *)
Definition loadRoute (self : loc) : M Route := fun σ =>
  match routes σ !! self with
  | Some r => mkOutcome (Val r) σ []
  | None => mkOutcome (Panic NilPointer) σ []
  end.

(** A field assignment [self.f = v]: the struct at [self] is replaced by
    [upd] of it. *)
Definition storeRoute (self : loc) (upd : Route -> Route) : M unit := fun σ =>
  match routes σ !! self with
  | Some r => mkOutcome (Val tt) (setRoute self (upd r) σ) []
  | None => mkOutcome (Panic NilPointer) σ []
  end.

(** [*p] for a [*Router]. *)
Definition loadRouter (p : loc) : M Router := fun σ =>
  match routers σ !! p with
  | Some rt => mkOutcome (Val rt) σ []
  | None => mkOutcome (Panic NilPointer) σ []
  end.

(** [fw.NewRoute(m, p, h)] on the adapter at address [fw]: a nil interface
    panics before any call is made; otherwise the call is logged and the
    engine is updated, also when the adapter panics. *)
Definition callNewRoute (fw : loc) (m p : string) (h : handler)
  : M (option Handle) := fun σ =>
  match engines σ !! fw with
  | None => mkOutcome (Panic NilInterface) σ []
  | Some e =>
      let '(e', v) := fwNewRoute m p h e in
      mkOutcome (fromCallee v) (setEngine fw e' σ) [CallNewRoute fw m p h]
  end.

(** [fr.RouteVars(r)] on an interface value. *)
Definition callRouteVars (fr : option Handle) (r : Request)
  : M (gmap string string) := fun σ =>
  match fr with
  | None => mkOutcome (Panic NilInterface) σ []
  | Some h => mkOutcome (fromCallee (fwRouteVars h r)) σ [CallRouteVars h r]
  end.

(** The bodies of the application's controller functions: a function
    value [fn] applied to a context runs on the whole store and may
    panic. *)
Variable applyFn : Fn -> RequestContext -> World -> World * value unit.

(** [fn(ctx)] on a function value. *)
Definition callControllerFn (fn : option Fn) (ctx : RequestContext)
  : M unit := fun σ =>
  match fn with
  | None => mkOutcome (Panic NilFunc) σ []
  | Some f =>
      let '(σ', v) := applyFn f ctx σ in
      mkOutcome (fromCallee v) σ' [CallControllerFn f ctx]
  end.

(** ** route.go *)

(** route.go:15-17 *)
Definition ControllerFn (self : loc) : M (option Fn) :=
  r ← loadRoute self;
  mret (controllerFn r).

(** route.go:19-21 *)
Definition FullPath (self : loc) : M string :=
  r ← loadRoute self;
  mret (fullPath r).

(** route.go:23-25 *)
Definition Method (self : loc) : M string :=
  r ← loadRoute self;
  mret (method r).

(** route.go:27-29 *)
Definition Path (self : loc) : M string :=
  r ← loadRoute self;
  mret (path r).

(** route.go:31-33 *)
Definition RouteVars (self : loc) (r : Request) : M (gmap string string) :=
  rt ← loadRoute self;
  callRouteVars (fwRoute rt) r.

Definition withControllerFn (fn : option Fn) (r : Route) : Route :=
  mkRoute (fwRoute r) (router r) (method r) (path r) (fullPath r)
    (defaultStatus r) fn.

Definition withDefaultStatus (status : Z) (r : Route) : Route :=
  mkRoute (fwRoute r) (router r) (method r) (path r) (fullPath r)
    status (controllerFn r).

Definition withFwRoute (fr : option Handle) (r : Route) : Route :=
  mkRoute fr (router r) (method r) (path r) (fullPath r)
    (defaultStatus r) (controllerFn r).

(** route.go:35-38; returns [self]. *)
Definition SetControllerFn (self : loc) (fn : option Fn) : M loc :=
  storeRoute self (withControllerFn fn);;
  mret self.

(** route.go:40-43; returns [self]. *)
Definition SetDefaultStatus (self : loc) (status : Z) : M loc :=
  storeRoute self (withDefaultStatus status);;
  mret self.

(** route.go:45-62; returns [self]. *)
Definition register (self : loc) (fn : option Fn) : M loc :=
  r ← loadRoute self;
  (if decide (defaultStatus r = 0) then
     if decide (method r = "POST") then
       storeRoute self (withDefaultStatus 201)
     else
       storeRoute self (withDefaultStatus 200)
   else mret tt);;
  storeRoute self (withControllerFn fn);;
  r ← loadRoute self;
  rt ← loadRouter (router r);
  fr ← callNewRoute (fwRouter rt) (method r) (path r) (HandleRequestOf self);
  storeRoute self (withFwRoute fr);;
  mret self.

(** route.go:65-69, the first statement of [handleRequest]. *)
Definition handleRequestContext (self : loc) (w : Writer) (r : Request)
  : M RequestContext :=
  rt ← loadRoute self;
  mret (newContextForRequest (newResponseWriter w (defaultStatus rt)) r self).

(** route.go:64-71 *)
Definition handleRequest (self : loc) (w : Writer) (r : Request) : M unit :=
  ctx ← handleRequestContext self w r;
  rt ← loadRoute self;
  callControllerFn (controllerFn rt) ctx.

(** What the engine does with a stored handler on a matching request. *)
Definition dispatch (h : handler) (w : Writer) (r : Request) : M unit :=
  match h with
  | HandleRequestOf self => handleRequest self w r
  end.

(** ** Sequences of the operations that change a [Route] *)

Inductive op : Type :=
| OpSetControllerFn (fn : option Fn)
| OpSetDefaultStatus (status : Z)
| OpRegister (fn : option Fn).

Definition runOp (self : loc) (o : op) : M loc :=
  match o with
  | OpSetControllerFn fn => SetControllerFn self fn
  | OpSetDefaultStatus status => SetDefaultStatus self status
  | OpRegister fn => register self fn
  end.

(** The operations are run one after the other on the store the previous
    one left, also when that one panicked (a recovered panic leaves the
    assignments made before it in place). *)
Fixpoint runOps (self : loc) (os : list op) (σ : World) : World :=
  match os with
  | [] => σ
  | o :: os' => runOps self os' (final (runOp self o σ))
  end.

Definition isRegister (o : op) : bool :=
  match o with
  | OpRegister _ => true
  | _ => false
  end.

Definition setsStatusZero (o : op) : bool :=
  match o with
  | OpSetDefaultStatus status => bool_decide (status = 0)
  | _ => false
  end.

Definition suppliesFn (o : op) : option (option Fn) :=
  match o with
  | OpSetControllerFn fn => Some fn
  | OpRegister fn => Some fn
  | OpSetDefaultStatus _ => None
  end.



(** The field [defaultStatus] of the route at [self], if there is one. *)
Definition statusAt (self : loc) (σ : World) : option Z :=
  defaultStatus <$> routes σ !! self.

(** The method-based default of [register]. *)
Definition methodDefault (m : string) : Z :=
  if decide (m = "POST") then 201 else 200.

(** The struct [register] has written at [self] when it reaches the call
    of [NewRoute]: status resolved, handler stored. *)
Definition resolved (r : Route) : Route :=
  if decide (defaultStatus r = 0)
  then withDefaultStatus (methodDefault (method r)) r
  else r.

Definition prepared (fn : option Fn) (r : Route) : Route :=
  withControllerFn fn (resolved r).

End Controller.

Arguments mkOutcome {host A} ret final calls.
Arguments ret {host A} o.
Arguments final {host A} o.
Arguments calls {host A} o.

(** ** A small instance: an engine that keeps a routing table

    The engine appends every registration to its table and refuses an
    empty pattern; a handle is the registered pattern; a request is the
    list of its path variables.  Controller [n] writes the status it was
    given in the application's journal. *)

Module Demo.

Definition table := list (string * string * handler).

Definition request := list (string * string).

Definition journal := list (nat * Z).

#[export] Instance demoHost : Host := {
  Fn := nat;
  Handle := string;
  Engine := table;
  Writer := unit;
  Request := request;
  AppState := journal
}.

#[export] Instance demoRouter : FrameworkRouter := {
  fwNewRoute m p h e :=
    if decide (p = "") then (e, Panic InCallee)
    else (e ++ [(m, p, h)], Val (Some p))
}.

#[export] Instance demoRoute : FrameworkRoute := {
  fwRouteVars fr r := Val (list_to_map r)
}.

Definition applyFn (f : Fn) (ctx : RequestContext) (σ : World)
  : World * value unit :=
  (mkWorld (routes σ) (routers σ) (engines σ)
     ((f, rwStatus (ctxWriter ctx)) :: app σ),
   Val tt).

Definition blank (m p : string) : Route :=
  mkRoute None 0%nat m p p 0 None.

(** Controller [n] as a value of type [ControllerFn]. *)
Definition ctl (n : nat) : option Fn := Some n.

(** One router at address 0 on the engine at address 0, a POST route at
    address 1 and a GET route at address 2, neither registered yet. *)
Definition start : World :=
  mkWorld
    (<[1%nat := blank "POST" "/kittens"]>
       (<[2%nat := blank "GET" "/kittens/{id}"]> ∅))
    (<[0%nat := mkRouter 0%nat ""]> ∅)
    (<[0%nat := []]> ∅)
    [].

(** The POST route once [register] has run on it with controller 7. *)
Definition kittens : Route :=
  mkRoute (Some "/kittens") 0%nat "POST" "/kittens" "/kittens" 201 (ctl 7).

Definition registered : World :=
  final (register 1%nat (ctl 7) start).

(** The same route after [SetDefaultStatus(0)]. *)
Definition zeroed : World :=
  runOps 1%nat [OpRegister (ctl 7); OpSetDefaultStatus 0] start.

End Demo.

(** * The example application (example/kittens/kittens.go)

    The two handlers of [KittensController] and the package-level map
    [kittens] they share.  What the handlers call in [api_framework] and
    [errors] is outside of the file: every such call is taken from a
    [Framework], works on the framework's own state, may panic, and is
    logged.  The map is a variable of package [main], out of the
    framework's reach; [WriteResponse], which is handed a pointer to the
    body whose kitten [AddKitten] has just stored, is taken to read it
    only.  Runs of the handlers are taken one at a time. *)

Module Example.

(** The types of the libraries: [*api_framework.UUID] values that are not
    nil, [context.Context], the framework's [*RequestContext], the error
    values made by [ErrorClass.New], and the framework's state. *)
Class Types : Type := {
  UUID : Type;
  Ctx : Type;
  RCtx : Type;
  Err : Type;
  FwState : Type
}.

(** kittens.go:25-36: the arguments given to [errors.NewErrorClass]. *)
Record ErrorClass : Type := mkErrorClass {
  ecName : string;
  ecId : string;
  ecStatus : Z;
  ecMessage : string
}.

Definition ErrInvalidKittenID : ErrorClass :=
  mkErrorClass "ErrInvalidKittenID" "ERR_ID_INVALID_KITTEN_ID" 400
    "Invalid kitten id specified".

Definition ErrKittenNotFound : ErrorClass :=
  mkErrorClass "ErrKittenNotFound" "ERR_ID_KITTEN_NOT_FOUND" 404
    "No kitten found with that id".

(** What stops a handler: a nil pointer dereference, [panic(msg)], or a
    panic inside a call of the framework. *)
Inductive crash : Set :=
| CrashNilPointer
| CrashMessage (msg : string)
| CrashInFramework.

Inductive answer (A : Type) : Type :=
| Done (a : A)
| Crashed (c : crash).
Arguments Done {A} a.
Arguments Crashed {A} c.

Section App.

Context `{types : Types}.

(** kittens.go:48-52; [Id] is a pointer, [None] is nil. *)
Record Kitten : Type := mkKitten {
  Id : option UUID;
  Name : string;
  Color : string
}.

(** kittens.go:43-45; the field is called [Kitten] in the source. *)
Record kittenData : Type := mkKittenData {
  KittenOf : Kitten
}.

(** kittens.go:40-42 *)
Record createKittenBody : Type := mkCreateKittenBody {
  Data : kittenData
}.

(** What a handler gives to [WriteResponse]: a body or an error value. *)
Inductive response : Type :=
| RespBody (b : createKittenBody)
| RespError (e : Err).

(** The calls the handlers make, with their arguments.  [uuidString] is
    the method [String] of a UUID and [asContext] the use of a
    [*RequestContext] as a [context.Context]; neither has an effect. *)
Class Framework : Type := {
  uuidString : UUID -> string;
  asContext : RCtx -> Ctx;
  fwRequestContext : Ctx -> FwState -> FwState * value RCtx;
  fwReadBody : Ctx -> FwState -> FwState * value (option createKittenBody);
  fwGenUUID : FwState -> FwState * value (option UUID);
  fwUUIDFromString : string -> FwState -> FwState * value (option UUID);
  fwRouteVar : RCtx -> string -> FwState -> FwState * value (string * bool);
  fwLogInfof :
    RCtx -> string -> option UUID -> FwState -> FwState * value unit;
  fwNewError :
    ErrorClass -> RCtx -> string -> FwState -> FwState * value Err;
  fwWriteResponse : Ctx -> response -> FwState -> FwState * value unit
}.

Context {framework : Framework}.

Inductive FwCall : Type :=
| CRequestContext (ctx : Ctx)
| CReadBody (ctx : Ctx)
| CGenUUID
| CUUIDFromString (s : string)
| CRouteVar (rctx : RCtx) (name : string)
| CLogInfof (rctx : RCtx) (format : string) (id : option UUID)
| CNewError (cls : ErrorClass) (rctx : RCtx) (msg : string)
| CWriteResponse (ctx : Ctx) (resp : response).

(** kittens.go:22: the map [kittens], from the string of an id to the
    kitten stored under it (the code stores pointers that it never leaves
    nil and never writes through again), beside the framework's state. *)
Record Process : Type := mkProcess {
  kittens : gmap string Kitten;
  fwState : FwState
}.

Record run (A : Type) : Type := mkRun {
  result : answer A;
  after : Process;
  trace : list FwCall
}.
Arguments mkRun {A} result after trace.
Arguments result {A} r.
Arguments after {A} r.
Arguments trace {A} r.

Definition K (A : Type) : Type := Process -> run A.

Definition kreturn {A} (a : A) : K A := fun σ => mkRun (Done a) σ [].

Definition kbind {A B} (m : K A) (f : A -> K B) : K B := fun σ =>
  let r := m σ in
  match result r with
  | Done a =>
      let r' := f a (after r) in
      mkRun (result r') (after r') (trace r ++ trace r')
  | Crashed c => mkRun (Crashed c) (after r) (trace r)
  end.

#[global] Instance K_ret : MRet K := @kreturn.
#[global] Instance K_bind : MBind K := fun A B f m => kbind m f.

Definition stop {A} (c : crash) : K A := fun σ => mkRun (Crashed c) σ [].

(** A call of the framework: logged, run on the framework's state. *)
Definition call {A} (c : FwCall) (f : FwState -> FwState * value A)
  : K A := fun σ =>
  let '(s', v) := f (fwState σ) in
  mkRun (match v with Val a => Done a | Panic _ => Crashed CrashInFramework end)
    (mkProcess (kittens σ) s') [c].

Definition RequestContextOf (ctx : Ctx) : K RCtx :=
  call (CRequestContext ctx) (fwRequestContext ctx).

Definition ReadBody (ctx : Ctx) : K (option createKittenBody) :=
  call (CReadBody ctx) (fwReadBody ctx).

Definition GenUUID : K (option UUID) :=
  call CGenUUID fwGenUUID.

Definition UUIDFromString (s : string) : K (option UUID) :=
  call (CUUIDFromString s) (fwUUIDFromString s).

Definition RouteVar (rctx : RCtx) (name : string) : K (string * bool) :=
  call (CRouteVar rctx name) (fwRouteVar rctx name).

Definition LogInfof (rctx : RCtx) (format : string) (id : option UUID)
  : K unit :=
  call (CLogInfof rctx format id) (fwLogInfof rctx format id).

Definition NewError (cls : ErrorClass) (rctx : RCtx) (msg : string) : K Err :=
  call (CNewError cls rctx msg) (fwNewError cls rctx msg).

Definition WriteResponse (ctx : Ctx) (resp : response) : K unit :=
  call (CWriteResponse ctx resp) (fwWriteResponse ctx resp).

(** [kittens[key]] with the comma-ok form, and [kittens[key] = k]. *)
Definition lookupKitten (key : string) : K (option Kitten) := fun σ =>
  mkRun (Done (kittens σ !! key)) σ [].

Definition storeKitten (key : string) (k : Kitten) : K unit := fun σ =>
  mkRun (Done tt) (mkProcess (<[key := k]> (kittens σ)) (fwState σ)) [].

(** [&body_obj.Data.Kitten] through the pointer [ReadBody] was given the
    address of: nil panics. *)
Definition kittenOfBody (body_obj : option createKittenBody) : K Kitten :=
  match body_obj with
  | Some b => mret (KittenOf (Data b))
  | None => stop CrashNilPointer
  end.

(** kittens.go:54-78.  The response is [body_obj], whose kitten is the one
    stored: [kitten] points into it. *)
Definition AddKitten (ctx : Ctx) : K unit :=
  rctx ← RequestContextOf ctx;
  body_obj ← ReadBody ctx;
  k ← kittenOfBody body_obj;
  id ← GenUUID;
  let kitten := mkKitten id (Name k) (Color k) in
  match id with
  | None => stop (CrashMessage "uuid generation failed")
  | Some u =>
      storeKitten (uuidString u) kitten;;
      LogInfof rctx "Created kitten with ID %s" (Some u);;
      WriteResponse ctx (RespBody (mkCreateKittenBody (mkKittenData kitten)))
  end.

(** kittens.go:80-115 *)
Definition GetKitten (ctx : Ctx) : K unit :=
  rctx ← RequestContextOf ctx;
  idok ← RouteVar rctx "id";
  uuid ← UUIDFromString idok.1;
  match uuid with
  | None =>
      e ← NewError ErrInvalidKittenID rctx
            "kitten id should be a uuid4 string";
      WriteResponse (asContext rctx) (RespError e)
  | Some u =>
      found ← lookupKitten (uuidString u);
      match found with
      | None =>
          e ← NewError ErrKittenNotFound rctx
                ("kitten id '" +:+ uuidString u +:+ "' does not exist");
          WriteResponse (asContext rctx) (RespError e)
      | Some kitten =>
          WriteResponse (asContext rctx)
            (RespBody (mkCreateKittenBody (mkKittenData kitten)))
      end
  end.

(** ** What is read off a run *)

Definition isWrite (c : FwCall) : bool :=
  match c with
  | CWriteResponse _ _ => true
  | _ => false
  end.

(** The responses written during a run, in order. *)
Definition written (cs : list FwCall) : list response :=
  omap (fun c => match c with
                 | CWriteResponse _ resp => Some resp
                 | _ => None
                 end) cs.

(** The bodies written during a run, and the classes of the errors made
    during it. *)
Definition bodiesWritten (cs : list FwCall) : list createKittenBody :=
  omap (fun c => match c with
                 | CWriteResponse _ (RespBody b) => Some b
                 | _ => None
                 end) cs.

Definition errorsMade (cs : list FwCall) : list ErrorClass :=
  omap (fun c => match c with
                 | CNewError cls _ _ => Some cls
                 | _ => None
                 end) cs.

(** A body that leaves the map alone. *)
Definition quiet {A} (m : K A) : Prop :=
  forall σ, kittens (after (m σ)) = kittens σ.

(** Every kitten is stored under the string of its own id. *)
Definition wellKeyed (m : gmap string Kitten) : Prop :=
  forall key k, m !! key = Some k ->
    exists u, Id k = Some u /\ uuidString u = key.

End App.

Arguments mkRun {types A} result after trace.
Arguments result {types A} r.
Arguments after {types A} r.
Arguments trace {types A} r.

(** ** A small framework

    An id is a number [n], written as [n + 1] letters k; the framework
    hands out the ids of a list and has none when the list is used up.  A
    request carries the route variable [id] and, for a POST, the name and
    the colour in its body. *)

Module Toy.

Fixpoint ks (n : nat) : string :=
  match n with
  | O => "k"
  | S n' => "k" +:+ ks n'
  end.

Definition fromKs (s : string) : option nat :=
  match String.length s with
  | O => None
  | S n => if decide (s = ks n) then Some n else None
  end.

Definition req : Type := string * option (string * string).

#[export] Instance toyTypes : Types := {
  UUID := nat;
  Ctx := req;
  RCtx := req;
  Err := ErrorClass * string;
  FwState := list (option nat)
}.

#[export] Instance toy : Framework := {
  uuidString := ks;
  asContext rctx := rctx;
  fwRequestContext ctx s := (s, Val ctx);
  fwReadBody ctx s :=
    (s, Val (match ctx.2 with
             | Some (n, c) =>
                 Some (mkCreateKittenBody (mkKittenData (mkKitten None n c)))
             | None => None
             end));
  fwGenUUID s :=
    match s with
    | [] => ([], Val None)
    | u :: s' => (s', Val u)
    end;
  fwUUIDFromString str s := (s, Val (fromKs str));
  fwRouteVar rctx name s :=
    (s, Val (if decide (name = "id") then (rctx.1, true) else ("", false)));
  fwLogInfof rctx format id s := (s, Val tt);
  fwNewError cls rctx msg s := (s, Val (cls, msg));
  fwWriteResponse ctx resp s := (s, Val tt)
}.

(** No kitten yet; the framework has the id 2 to give and then none. *)
Definition fresh : Process := mkProcess ∅ [Some 2%nat; None].

Definition post (name colour : string) : Ctx := ("", Some (name, colour)).

Definition get (id : string) : Ctx := (id, None).

Definition tom : Kitten := mkKitten (Some 2%nat) "Tom" "grey".

(** After Tom has been posted. *)
Definition stocked : Process := after (AddKitten (post "Tom" "grey") fresh).

End Toy.

End Example.

(** * Properties *)

Section Properties.

Context `{host : Host}.
Context {adapterRoute : FrameworkRoute}.
Context {adapterRouter : FrameworkRouter}.
Variable applyFn : Fn -> RequestContext -> World -> World * value unit.

Implicit Types (σ : World) (self : loc) (r : Route) (fn : option Fn).
Implicit Types (o : op) (os : list op).

(** ** Running method bodies *)

Lemma bind_val {A B} (m : M A) (f : A -> M B) σ a σ' cs :
  m σ = mkOutcome (Val a) σ' cs ->
  (m ≫= f) σ =
  mkOutcome (ret (f a σ')) (final (f a σ')) (cs ++ calls (f a σ')).
Proof. intros Hm. unfold mbind, M_bind, bind. by rewrite Hm. Qed.

Lemma bind_panic {A B} (m : M A) (f : A -> M B) σ p σ' cs :
  m σ = mkOutcome (Panic p) σ' cs ->
  (m ≫= f) σ = mkOutcome (Panic p) σ' cs.
Proof. intros Hm. unfold mbind, M_bind, bind. by rewrite Hm. Qed.

Lemma bind_silent {A B} (m : M A) (f : A -> M B) σ a σ' :
  m σ = mkOutcome (Val a) σ' [] ->
  (m ≫= f) σ = f a σ'.
Proof.
  intros Hm. unfold mbind, M_bind, bind. rewrite Hm. cbn.
  by destruct (f a σ').
Qed.

Lemma loadRoute_live σ self r :
  routes σ !! self = Some r ->
  loadRoute self σ = mkOutcome (Val r) σ [].
Proof. intros Hr. unfold loadRoute. by rewrite Hr. Qed.

Lemma loadRoute_nil σ self :
  routes σ !! self = None ->
  loadRoute self σ = mkOutcome (Panic NilPointer) σ [].
Proof. intros Hr. unfold loadRoute. by rewrite Hr. Qed.

Lemma storeRoute_live σ self r upd :
  routes σ !! self = Some r ->
  storeRoute self upd σ = mkOutcome (Val tt) (setRoute self (upd r) σ) [].
Proof. intros Hr. unfold storeRoute. by rewrite Hr. Qed.

Lemma storeRoute_nil σ self upd :
  routes σ !! self = None ->
  storeRoute self upd σ = mkOutcome (Panic NilPointer) σ [].
Proof. intros Hr. unfold storeRoute. by rewrite Hr. Qed.

Lemma setRoute_lookup σ self r : routes (setRoute self r σ) !! self = Some r.
Proof. apply lookup_insert_eq. Qed.

Lemma setRoute_setRoute σ self r r' :
  setRoute self r' (setRoute self r σ) = setRoute self r' σ.
Proof. unfold setRoute. cbn. by rewrite insert_insert_eq. Qed.

Lemma setRoute_id σ self r : routes σ !! self = Some r -> setRoute self r σ = σ.
Proof.
  intros Hr. destruct σ as [rs rt es a]. unfold setRoute. cbn in *.
  by rewrite insert_id.
Qed.

Lemma setEngine_routes σ fw e : routes (setEngine fw e σ) = routes σ.
Proof. reflexivity. Qed.

Lemma SetControllerFn_live σ self r fn :
  routes σ !! self = Some r ->
  SetControllerFn self fn σ =
  mkOutcome (Val self) (setRoute self (withControllerFn fn r) σ) [].
Proof.
  intros Hr. unfold SetControllerFn.
  by rewrite (bind_val _ _ _ _ _ _ (storeRoute_live _ _ _ _ Hr)).
Qed.

Lemma SetDefaultStatus_live σ self r status :
  routes σ !! self = Some r ->
  SetDefaultStatus self status σ =
  mkOutcome (Val self) (setRoute self (withDefaultStatus status r) σ) [].
Proof.
  intros Hr. unfold SetDefaultStatus.
  by rewrite (bind_val _ _ _ _ _ _ (storeRoute_live _ _ _ _ Hr)).
Qed.

Lemma SetControllerFn_nil σ self fn :
  routes σ !! self = None ->
  SetControllerFn self fn σ = mkOutcome (Panic NilPointer) σ [].
Proof.
  intros Hr. unfold SetControllerFn.
  by rewrite (bind_panic _ _ _ _ _ _ (storeRoute_nil _ _ _ Hr)).
Qed.

Lemma SetDefaultStatus_nil σ self status :
  routes σ !! self = None ->
  SetDefaultStatus self status σ = mkOutcome (Panic NilPointer) σ [].
Proof.
  intros Hr. unfold SetDefaultStatus.
  by rewrite (bind_panic _ _ _ _ _ _ (storeRoute_nil _ _ _ Hr)).
Qed.

Lemma router_prepared fn r : router (prepared fn r) = router r.
Proof. unfold prepared, resolved. by case_decide. Qed.

Lemma method_prepared fn r : method (prepared fn r) = method r.
Proof. unfold prepared, resolved. by case_decide. Qed.

Lemma path_prepared fn r : path (prepared fn r) = path r.
Proof. unfold prepared, resolved. by case_decide. Qed.

(** The first two statements of [register]: afterwards the struct at
    [self] is [prepared fn r]. *)
Lemma register_run σ self r fn :
  routes σ !! self = Some r ->
  register self fn σ =
  let r1 := prepared fn r in
  let σ1 := setRoute self r1 σ in
  match routers σ !! router r with
  | None => mkOutcome (Panic NilPointer) σ1 []
  | Some rt =>
      let fw := fwRouter rt in
      match engines σ !! fw with
      | None => mkOutcome (Panic NilInterface) σ1 []
      | Some e =>
          let c := CallNewRoute fw (method r) (path r) (HandleRequestOf self) in
          match fwNewRoute (method r) (path r) (HandleRequestOf self) e with
          | (e', Val fr) =>
              mkOutcome (Val self)
                (setRoute self (withFwRoute fr r1) (setEngine fw e' σ1)) [c]
          | (e', Panic _) =>
              mkOutcome (Panic InCallee) (setEngine fw e' σ1) [c]
          end
      end
  end.
Proof.
  intros Hr. unfold register.
  rewrite (bind_silent _ _ _ _ _ (loadRoute_live _ _ _ Hr)).
  assert (Hres : (if decide (defaultStatus r = 0)
                  then if decide (method r = "POST")
                       then storeRoute self (withDefaultStatus 201)
                       else storeRoute self (withDefaultStatus 200)
                  else mret tt) σ
                 = mkOutcome (Val tt) (setRoute self (resolved r) σ) []).
  { unfold resolved, methodDefault.
    destruct (decide (defaultStatus r = 0)); [destruct (decide (method r = "POST"))|].
    - by apply storeRoute_live.
    - by apply storeRoute_live.
    - by rewrite setRoute_id. }
  rewrite (bind_silent _ _ _ _ _ Hres).
  pose proof (setRoute_lookup σ self (resolved r)) as H1.
  rewrite (bind_silent _ _ _ _ _ (storeRoute_live _ _ _ (withControllerFn fn) H1)).
  rewrite setRoute_setRoute. fold (prepared fn r).
  pose proof (setRoute_lookup σ self (prepared fn r)) as H2.
  rewrite (bind_silent _ _ _ _ _ (loadRoute_live _ _ _ H2)).
  rewrite router_prepared, method_prepared, path_prepared.
  cbn zeta.
  unfold mbind, M_bind, bind, loadRouter. cbn [routers setRoute].
  destruct (routers σ !! router r) as [rt|]; [|done]. cbn.
  unfold callNewRoute. cbn [engines setRoute].
  destruct (engines σ !! fwRouter rt) as [e|]; [|done].
  destruct (fwNewRoute (method r) (path r) (HandleRequestOf self) e) as [e' [fr|p]]; cbn; [|done].
  rewrite (storeRoute_live (setEngine (fwRouter rt) e' (setRoute self (prepared fn r) σ))
             self (prepared fn r) (withFwRoute fr) H2).
  done.
Qed.

(** ** What one operation does to the struct at [self] *)

Lemma register_route σ self r fn :
  routes σ !! self = Some r ->
  exists fr,
    routes (final (register self fn σ)) !! self
    = Some (withFwRoute fr (prepared fn r)).
Proof.
  intros Hr. rewrite (register_run _ _ _ _ Hr). cbn zeta.
  destruct (routers σ !! router r) as [rt|].
  2:{ exists (fwRoute r). cbn. rewrite lookup_insert_eq.
      unfold prepared, resolved. by case_decide. }
  destruct (engines σ !! fwRouter rt) as [e|].
  2:{ exists (fwRoute r). cbn. rewrite lookup_insert_eq.
      unfold prepared, resolved. by case_decide. }
  destruct (fwNewRoute _ _ _ e) as [e' [fr|p]].
  - exists fr. cbn. by rewrite lookup_insert_eq.
  - exists (fwRoute r). cbn. rewrite lookup_insert_eq.
    unfold prepared, resolved. by case_decide.
Qed.

Lemma runOp_route σ self r o :
  routes σ !! self = Some r ->
  exists r',
    routes (final (runOp self o σ)) !! self = Some r' /\
    router r' = router r /\ method r' = method r /\
    path r' = path r /\ fullPath r' = fullPath r /\
    defaultStatus r' =
      match o with
      | OpSetDefaultStatus status => status
      | OpRegister _ =>
          if decide (defaultStatus r = 0) then methodDefault (method r)
          else defaultStatus r
      | OpSetControllerFn _ => defaultStatus r
      end /\
    controllerFn r' =
      match o with
      | OpSetControllerFn f | OpRegister f => f
      | OpSetDefaultStatus _ => controllerFn r
      end /\
    (isRegister o = false -> fwRoute r' = fwRoute r).
Proof.
  intros Hr. destruct o as [f|status|f]; cbn [runOp].
  - rewrite (SetControllerFn_live _ _ _ _ Hr). eexists. split.
    + apply setRoute_lookup.
    + by cbn.
  - rewrite (SetDefaultStatus_live _ _ _ _ Hr). eexists. split.
    + apply setRoute_lookup.
    + by cbn.
  - destruct (register_route _ _ _ f Hr) as [fr Hfr]. eexists. split.
    + exact Hfr.
    + unfold prepared, resolved. by case_decide.
Qed.

Lemma runOps_app self os os' σ :
  runOps self (os ++ os') σ = runOps self os' (runOps self os σ).
Proof. revert σ. induction os as [|o os IH]; intros σ; cbn; [done|apply IH]. Qed.

Lemma runOps_live self os σ r :
  routes σ !! self = Some r ->
  exists r', routes (runOps self os σ) !! self = Some r' /\
    router r' = router r /\ method r' = method r /\
    path r' = path r /\ fullPath r' = fullPath r.
Proof.
  revert σ r. induction os as [|o os IH]; intros σ r Hr; cbn.
  - by exists r.
  - destruct (runOp_route _ _ _ o Hr) as (r1 & H1 & Hro & Hm & Hp & Hf & _).
    destruct (IH _ _ H1) as (r2 & H2 & Hro2 & Hm2 & Hp2 & Hf2).
    exists r2. rewrite Hro2, Hm2, Hp2, Hf2. done.
Qed.

Lemma runOps_unregistered self os σ r :
  routes σ !! self = Some r ->
  Forall (fun o => isRegister o = false) os ->
  exists r', routes (runOps self os σ) !! self = Some r' /\
    fwRoute r' = fwRoute r.
Proof.
  intros Hr Hos. revert σ r Hr.
  induction Hos as [|o os Ho _ IH]; intros σ r Hr; cbn.
  - by exists r.
  - destruct (runOp_route _ _ _ o Hr) as (r1 & H1 & _ & _ & _ & _ & _ & _ & Hfw).
    destruct (IH _ _ H1) as (r2 & H2 & Hfw2).
    exists r2. split; [done|]. rewrite Hfw2. by apply Hfw.
Qed.

Lemma runOps_nonzero self os σ r :
  routes σ !! self = Some r ->
  defaultStatus r ≠ 0 ->
  Forall (fun o => setsStatusZero o = false) os ->
  exists r', routes (runOps self os σ) !! self = Some r' /\
    defaultStatus r' ≠ 0.
Proof.
  intros Hr Hnz Hos. revert σ r Hr Hnz.
  induction Hos as [|o os Ho _ IH]; intros σ r Hr Hnz; cbn.
  - by exists r.
  - destruct (runOp_route _ _ _ o Hr) as (r1 & H1 & _ & _ & _ & _ & Hst & _).
    apply (IH _ _ H1). rewrite Hst.
    destruct o as [f|status|f]; cbn in Ho.
    + done.
    + by apply bool_decide_eq_false in Ho.
    + by case_decide.
Qed.

Lemma runOps_keeps_fn self os σ r :
  routes σ !! self = Some r ->
  Forall (fun o => suppliesFn o = None) os ->
  exists r', routes (runOps self os σ) !! self = Some r' /\
    controllerFn r' = controllerFn r.
Proof.
  intros Hr Hos. revert σ r Hr.
  induction Hos as [|o os Ho _ IH]; intros σ r Hr; cbn.
  - by exists r.
  - destruct (runOp_route _ _ _ o Hr) as (r1 & H1 & _ & _ & _ & _ & _ & Hfn & _).
    destruct (IH _ _ H1) as (r2 & H2 & Hfn2).
    exists r2. split; [done|]. rewrite Hfn2, Hfn.
    by destruct o.
Qed.

(** [register] on a route whose router and adapter are there. *)
Lemma register_wired σ self r rt e fn :
  routes σ !! self = Some r ->
  routers σ !! router r = Some rt ->
  engines σ !! fwRouter rt = Some e ->
  let fw := fwRouter rt in
  let c := CallNewRoute fw (method r) (path r) (HandleRequestOf self) in
  let e' := (fwNewRoute (method r) (path r) (HandleRequestOf self) e).1 in
  let o := register self fn σ in
  calls o = [c] /\
  engines (final o) !! fw = Some e' /\
  routers (final o) = routers σ /\
  exists r', routes (final o) !! self = Some r' /\
    router r' = router r /\ method r' = method r /\ path r' = path r.
Proof.
  intros Hr Hrt He. cbn zeta.
  rewrite (register_run _ _ _ _ Hr). cbn zeta. rewrite Hrt, He.
  destruct (fwNewRoute _ _ _ e) as [e' [fr|p]]; cbn.
  - rewrite !lookup_insert_eq. repeat split; try done.
    eexists. split; [done|].
    by rewrite <- (router_prepared fn r), <- (method_prepared fn r),
      <- (path_prepared fn r).
  - rewrite !lookup_insert_eq. repeat split; try done.
    eexists. split; [done|].
    by rewrite router_prepared, method_prepared, path_prepared.
Qed.

(** ** Dispatch *)

Lemma handleRequestContext_live σ self r w req :
  routes σ !! self = Some r ->
  handleRequestContext self w req σ =
  mkOutcome
    (Val (newContextForRequest (newResponseWriter w (defaultStatus r)) req self))
    σ [].
Proof.
  intros Hr. unfold handleRequestContext.
  by rewrite (bind_silent _ _ _ _ _ (loadRoute_live _ _ _ Hr)).
Qed.

Lemma handleRequest_live σ self r w req :
  routes σ !! self = Some r ->
  handleRequest applyFn self w req σ =
  callControllerFn applyFn (controllerFn r)
    (newContextForRequest (newResponseWriter w (defaultStatus r)) req self) σ.
Proof.
  intros Hr. unfold handleRequest.
  rewrite (bind_silent _ _ _ _ _ (handleRequestContext_live _ _ _ w req Hr)).
  by rewrite (bind_silent _ _ _ _ _ (loadRoute_live _ _ _ Hr)).
Qed.

Lemma handleRequest_nil σ self w req :
  routes σ !! self = None ->
  handleRequest applyFn self w req σ = mkOutcome (Panic NilPointer) σ [].
Proof.
  intros Hr. unfold handleRequest, handleRequestContext.
  unfold mbind at 1. unfold M_bind.
  apply bind_panic. apply bind_panic. by apply loadRoute_nil.
Qed.




(** ** The claims *)

(** C1: [register] on a route whose [defaultStatus] is unset (zero) sets
    it to 201 when the method is "POST" and to 200 for every other method;
    a nonzero [defaultStatus] is left as it is.  This holds of the store
    [register] leaves whether it returns or panics at the adapter. *)
Theorem register_resolves_defaultStatus σ self r fn :
  routes σ !! self = Some r ->
  exists r',
    routes (final (register self fn σ)) !! self = Some r' /\
    (defaultStatus r = 0 -> method r = "POST" -> defaultStatus r' = 201) /\
    (defaultStatus r = 0 -> method r ≠ "POST" -> defaultStatus r' = 200) /\
    (defaultStatus r ≠ 0 -> defaultStatus r' = defaultStatus r).
Proof.
  intros Hr.
  destruct (runOp_route _ _ _ (OpRegister fn) Hr)
    as (r' & Hr' & _ & _ & _ & _ & Hst & _).
  exists r'. split; [exact Hr'|]. rewrite Hst. unfold methodDefault.
  repeat split; intros; repeat case_decide; congruence.
Qed.


(** C3 (as amended): once [register] has been called on a route,
    [defaultStatus] is not 0 when [handleRequest] runs, whatever
    [SetControllerFn], [SetDefaultStatus] and [register] calls came before
    the registration, and whatever calls come after it that do not set
    the status to 0. *)
Theorem registered_status_nonzero σ self r pre fn post w req :
  routes σ !! self = Some r ->
  Forall (fun o => setsStatusZero o = false) post ->
  let σ' := runOps self (pre ++ OpRegister fn :: post) σ in
  exists r',
    routes σ' !! self = Some r' /\ defaultStatus r' ≠ 0 /\
    handleRequestContext self w req σ' =
      mkOutcome
        (Val (mkRequestContext (mkResponseWriter w (defaultStatus r')) req self))
        σ' [].
Proof.
  intros Hr Hpost. cbn zeta. rewrite runOps_app. cbn [runOps runOp].
  destruct (runOps_live self pre σ r Hr) as (r0 & H0 & _).
  destruct (runOp_route _ _ _ (OpRegister fn) H0)
    as (r1 & H1 & _ & _ & _ & _ & Hst & _).
  cbn [runOp] in H1.
  assert (Hnz : defaultStatus r1 ≠ 0).
  { rewrite Hst. unfold methodDefault. by repeat case_decide. }
  destruct (runOps_nonzero self post _ r1 H1 Hnz Hpost) as (r' & Hr' & Hnz').
  exists r'. repeat split; [done..|].
  by apply handleRequestContext_live.
Qed.

(** C4: on a request, [handleRequest] of a route with a controller builds
    the response wrapper seeded with the route's [defaultStatus], builds
    the context of the raw request, that wrapper and the route itself, and
    calls the controller once, on that context and on the store as the
    dispatch found it; it makes no other call, and what the controller
    leaves and returns is what [handleRequest] leaves and returns.  The
    controller's only argument is the context. *)
Theorem handleRequest_calls_controller_once σ self r f w req :
  routes σ !! self = Some r ->
  controllerFn r = Some f ->
  let ctx :=
    mkRequestContext (mkResponseWriter w (defaultStatus r)) req self in
  let o := handleRequest applyFn self w req σ in
  calls o = [CallControllerFn f ctx] /\
  final o = (applyFn f ctx σ).1 /\
  ret o = fromCallee (applyFn f ctx σ).2.
Proof.
  intros Hr Hf. cbn zeta. rewrite (handleRequest_live _ _ _ w req Hr), Hf.
  unfold callControllerFn, newContextForRequest, newResponseWriter.
  by destruct (applyFn f _ σ).
Qed.

(** C5: [register] is not idempotent.  On a route whose router and adapter
    are there, a call of [register] makes one call of the adapter's
    [NewRoute], with the route's method, its path and the handler bound to
    the route, and the engine is the one that call left; a second
    [register] on the same route makes the same call again, on the engine
    the first one left. *)
Theorem register_twice_registers_twice σ self r rt e fn fn' :
  routes σ !! self = Some r ->
  routers σ !! router r = Some rt ->
  engines σ !! fwRouter rt = Some e ->
  let fw := fwRouter rt in
  let h := HandleRequestOf self in
  let c := CallNewRoute fw (method r) (path r) h in
  let e1 := (fwNewRoute (method r) (path r) h e).1 in
  let e2 := (fwNewRoute (method r) (path r) h e1).1 in
  let o1 := register self fn σ in
  let o2 := register self fn' (final o1) in
  calls o1 = [c] /\ engines (final o1) !! fw = Some e1 /\
  calls o2 = [c] /\ engines (final o2) !! fw = Some e2 /\
  calls o1 ++ calls o2 = [c; c].
Proof.
  intros Hr Hrt He. cbn zeta.
  destruct (register_wired σ self r rt e fn Hr Hrt He)
    as (Hc1 & He1 & Hrt1 & r1 & Hr1 & Hro & Hm & Hp).
  assert (Hrt' : routers (final (register self fn σ)) !! router r1 = Some rt)
    by by rewrite Hrt1, Hro.
  destruct (register_wired _ self r1 rt _ fn' Hr1 Hrt' He1)
    as (Hc2 & He2 & _).
  rewrite Hm, Hp in Hc2, He2.
  rewrite Hc1, Hc2. by repeat split.
Qed.

(** C6: on a route that has not been registered (its [fwRoute] is the nil
    interface that the struct starts with and that only [register]
    assigns), after any calls of the setters, [RouteVars] panics on the
    nil interface: nothing is returned, the adapter is not called. *)
Theorem RouteVars_before_register_panics σ self r os req :
  routes σ !! self = Some r ->
  fwRoute r = None ->
  Forall (fun o => isRegister o = false) os ->
  RouteVars self req (runOps self os σ) =
  mkOutcome (Panic NilInterface) (runOps self os σ) [].
Proof.
  intros Hr Hfw Hos.
  destruct (runOps_unregistered self os σ r Hr Hos) as (r' & Hr' & Hfw').
  unfold RouteVars. rewrite (bind_silent _ _ _ _ _ (loadRoute_live _ _ _ Hr')).
  by rewrite Hfw', Hfw.
Qed.

(** C7: [handleRequest] of a route without a controller panics on the
    call of the nil function: the context has been built by then, nothing
    has been called and the store is as the dispatch found it.  The panic
    of a nil function call is raised exactly when [controllerFn] is
    nil. *)
Theorem handleRequest_nil_controller_panics σ self r w req :
  routes σ !! self = Some r ->
  (ret (handleRequest applyFn self w req σ) = Panic NilFunc
   <-> controllerFn r = None) /\
  (controllerFn r = None ->
   handleRequest applyFn self w req σ = mkOutcome (Panic NilFunc) σ [] /\
   handleRequestContext self w req σ =
     mkOutcome
       (Val (mkRequestContext (mkResponseWriter w (defaultStatus r)) req self))
       σ []).
Proof.
  intros Hr. rewrite (handleRequest_live _ _ _ w req Hr).
  unfold callControllerFn. split.
  - destruct (controllerFn r) as [f|]; [|done].
    destruct (applyFn f _ σ) as [σ' [[]|p]]; cbn; split; intros; done.
  - intros Hnil. rewrite Hnil. split; [done|].
    by apply handleRequestContext_live.
Qed.

(** C8: a route holds one controller, the one supplied last.  After any
    sequence of calls, the [controllerFn] of the route is the function
    given to the last [SetControllerFn] or [register] among them: a later
    call overwrites what an earlier one stored. *)
Theorem controllerFn_is_last_supplied σ self r pre o post f :
  routes σ !! self = Some r ->
  suppliesFn o = Some f ->
  Forall (fun o' => suppliesFn o' = None) post ->
  exists r',
    routes (runOps self (pre ++ o :: post) σ) !! self = Some r' /\
    controllerFn r' = f.
Proof.
  intros Hr Ho Hpost. rewrite runOps_app. cbn [runOps].
  destruct (runOps_live self pre σ r Hr) as (r0 & H0 & _).
  destruct (runOp_route _ _ _ o H0) as (r1 & H1 & _ & _ & _ & _ & _ & Hfn & _).
  destruct (runOps_keeps_fn self post _ r1 H1 Hpost) as (r' & Hr' & Hfn').
  exists r'. split; [done|]. rewrite Hfn', Hfn.
  destruct o; cbn in Ho; congruence.
Qed.

(** C9: the accessors [Method], [Path], [FullPath] and [ControllerFn]
    return the field of the route and change nothing: the store they
    leave is the store they found, every field of every route included,
    and they call nothing. *)
Theorem accessors_read_only σ self r :
  routes σ !! self = Some r ->
  Method self σ = mkOutcome (Val (method r)) σ [] /\
  Path self σ = mkOutcome (Val (path r)) σ [] /\
  FullPath self σ = mkOutcome (Val (fullPath r)) σ [] /\
  ControllerFn self σ = mkOutcome (Val (controllerFn r)) σ [].
Proof.
  intros Hr. unfold Method, Path, FullPath, ControllerFn.
  by rewrite !(bind_silent _ _ _ _ _ (loadRoute_live _ _ _ Hr)).
Qed.

(** C10: [SetDefaultStatus(0)] before registration is the same as never
    setting a status.  After it, [register] gives the route the default
    of its method, 201 for "POST" and 200 otherwise; and on a route whose
    status was unset, [register] after [SetDefaultStatus(0)] does what
    [register] alone does. *)
Theorem explicit_zero_status_is_unset σ self r fn :
  routes σ !! self = Some r ->
  let σ0 := final (SetDefaultStatus self 0 σ) in
  (exists r',
      routes (final (register self fn σ0)) !! self = Some r' /\
      defaultStatus r' = if decide (method r = "POST") then 201 else 200) /\
  (defaultStatus r = 0 -> register self fn σ0 = register self fn σ).
Proof.
  intros Hr. cbn zeta. rewrite (SetDefaultStatus_live _ _ _ _ Hr). cbn [final].
  split.
  - pose proof (setRoute_lookup σ self (withDefaultStatus 0 r)) as H0.
    destruct (runOp_route _ _ _ (OpRegister fn) H0)
      as (r' & Hr' & _ & _ & _ & _ & Hst & _).
    exists r'. split; [exact Hr'|]. rewrite Hst. cbn.
    by rewrite decide_True.
  - intros Hz. replace (withDefaultStatus 0 r) with r.
    + by rewrite setRoute_id.
    + destruct r. cbn in *. unfold withDefaultStatus. cbn. by rewrite Hz.
Qed.

End Properties.

(** * Further properties of route.go *)

Section RouteProperties.

Context `{host : Host}.
Context {adapterRoute : FrameworkRoute}.
Context {adapterRouter : FrameworkRouter}.
Variable applyFn : Fn -> RequestContext -> World -> World * value unit.

Implicit Types (σ : World) (self : loc) (r : Route) (fn : option Fn).
Implicit Types (o : op) (os : list op).

Lemma register_nil σ self fn :
  routes σ !! self = None ->
  register self fn σ = mkOutcome (Panic NilPointer) σ [].
Proof.
  intros Hr. unfold register.
  by rewrite (bind_panic _ _ _ _ _ _ (loadRoute_nil _ _ Hr)).
Qed.

Lemma accessor_nil {A} (f : Route -> M A) σ self :
  routes σ !! self = None ->
  (loadRoute self ≫= f) σ = mkOutcome (Panic NilPointer) σ [].
Proof. intros Hr. by rewrite (bind_panic _ _ _ _ _ _ (loadRoute_nil _ _ Hr)). Qed.

Lemma runOp_nil σ self o :
  routes σ !! self = None -> final (runOp self o σ) = σ.
Proof.
  intros Hr. destruct o; cbn [runOp].
  - by rewrite SetControllerFn_nil.
  - by rewrite SetDefaultStatus_nil.
  - by rewrite register_nil.
Qed.

Lemma runOps_nil σ self os :
  routes σ !! self = None -> runOps self os σ = σ.
Proof.
  intros Hr. induction os as [|o os IH]; cbn; [done|].
  by rewrite (runOp_nil _ _ _ Hr).
Qed.

(** What one operation leaves alone. *)
Lemma runOp_frame σ self o other :
  other ≠ self ->
  routes (final (runOp self o σ)) !! other = routes σ !! other /\
  routers (final (runOp self o σ)) = routers σ /\
  app (final (runOp self o σ)) = app σ /\
  (isRegister o = false -> engines (final (runOp self o σ)) = engines σ).
Proof.
  intros Hne. destruct (routes σ !! self) as [r|] eqn:Hr.
  2:{ by rewrite (runOp_nil _ _ _ Hr). }
  destruct o as [f|status|f]; cbn [runOp].
  - rewrite (SetControllerFn_live _ _ _ _ Hr). cbn.
    by rewrite lookup_insert_ne.
  - rewrite (SetDefaultStatus_live _ _ _ _ Hr). cbn.
    by rewrite lookup_insert_ne.
  - rewrite (register_run _ _ _ _ Hr). cbn zeta.
    destruct (routers σ !! router r) as [rt|]; cbn.
    2:{ by rewrite lookup_insert_ne. }
    destruct (engines σ !! fwRouter rt) as [e|]; cbn.
    2:{ by rewrite lookup_insert_ne. }
    destruct (fwNewRoute _ _ _ e) as [e' [fr|p]]; cbn;
      by rewrite ?lookup_insert_ne.
Qed.

(** X1: every method of [Route] panics on a nil receiver, a nil pointer
    dereference, before it has changed anything or called anything. *)
Theorem nil_receiver_panics σ self fn status w req :
  routes σ !! self = None ->
  ControllerFn self σ = mkOutcome (Panic NilPointer) σ [] /\
  FullPath self σ = mkOutcome (Panic NilPointer) σ [] /\
  Method self σ = mkOutcome (Panic NilPointer) σ [] /\
  Path self σ = mkOutcome (Panic NilPointer) σ [] /\
  RouteVars self req σ = mkOutcome (Panic NilPointer) σ [] /\
  SetControllerFn self fn σ = mkOutcome (Panic NilPointer) σ [] /\
  SetDefaultStatus self status σ = mkOutcome (Panic NilPointer) σ [] /\
  register self fn σ = mkOutcome (Panic NilPointer) σ [] /\
  handleRequest applyFn self w req σ = mkOutcome (Panic NilPointer) σ [].
Proof.
  intros Hr. unfold ControllerFn, FullPath, Method, Path, RouteVars.
  rewrite !(accessor_nil _ _ _ Hr).
  rewrite (SetControllerFn_nil _ _ _ Hr), (SetDefaultStatus_nil _ _ _ Hr).
  rewrite (register_nil _ _ _ Hr), (handleRequest_nil applyFn _ _ _ _ Hr).
  done.
Qed.

(** X2: the setters return their receiver and commute: chained in either
    order they leave the same store, on a nil receiver too. *)
Theorem setters_chain_and_commute σ self fn status :
  (SetControllerFn self fn ≫= fun p => SetDefaultStatus p status) σ =
  (SetDefaultStatus self status ≫= fun p => SetControllerFn p fn) σ /\
  (is_Some (routes σ !! self) ->
   ret (SetControllerFn self fn σ) = Val self /\
   ret (SetDefaultStatus self status σ) = Val self).
Proof.
  destruct (routes σ !! self) as [r|] eqn:Hr.
  - split.
    + rewrite (bind_silent _ _ _ _ _ (SetControllerFn_live _ _ _ fn Hr)).
      rewrite (bind_silent _ _ _ _ _ (SetDefaultStatus_live _ _ _ status Hr)).
      rewrite (SetDefaultStatus_live _ _ _ status (setRoute_lookup σ self _)).
      rewrite (SetControllerFn_live _ _ _ fn (setRoute_lookup σ self _)).
      by rewrite !setRoute_setRoute.
    + intros _.
      by rewrite (SetControllerFn_live _ _ _ fn Hr),
        (SetDefaultStatus_live _ _ _ status Hr).
  - split.
    + rewrite (bind_panic _ _ _ _ _ _ (SetControllerFn_nil _ _ fn Hr)).
      by rewrite (bind_panic _ _ _ _ _ _ (SetDefaultStatus_nil _ _ status Hr)).
    + by intros [? ?].
Qed.

(** X3: operations on one route touch nothing else.  Whatever sequence of
    [SetControllerFn], [SetDefaultStatus] and [register] runs on the route
    at [self], every other route, every router and the application's state
    are as they were; and without a [register] among them the engines are
    as they were too. *)
Theorem operations_touch_only_their_route σ self os other :
  other ≠ self ->
  routes (runOps self os σ) !! other = routes σ !! other /\
  routers (runOps self os σ) = routers σ /\
  app (runOps self os σ) = app σ /\
  (Forall (fun o => isRegister o = false) os ->
   engines (runOps self os σ) = engines σ).
Proof.
  intros Hne. revert σ. induction os as [|o os IH]; intros σ; cbn [runOps].
  - done.
  - destruct (runOp_frame σ self o other Hne) as (H1 & H2 & H3 & H4).
    destruct (IH (final (runOp self o σ))) as (I1 & I2 & I3 & I4).
    rewrite I1, I2, I3, H1, H2, H3. repeat split; try done.
    intros Hos. inversion Hos as [|? ? Ho Hos']; subst.
    rewrite (I4 Hos'). by apply H4.
Qed.

(** X4: no operation changes what identifies a route: after any sequence
    of [SetControllerFn], [SetDefaultStatus] and [register], the route has
    the router, the method, the path and the full path it had. *)
Theorem identity_fields_never_change σ self r os :
  routes σ !! self = Some r ->
  exists r',
    routes (runOps self os σ) !! self = Some r' /\
    router r' = router r /\ method r' = method r /\
    path r' = path r /\ fullPath r' = fullPath r.
Proof.
  revert σ r. induction os as [|o os IH]; intros σ r Hr; cbn [runOps].
  - exists r. by repeat split.
  - destruct (runOp_route _ _ _ o Hr) as (r1 & H1 & Hro & Hm & Hp & Hf & _).
    destruct (IH _ _ H1) as (r2 & H2 & Hro2 & Hm2 & Hp2 & Hf2).
    exists r2. repeat split; [done|congruence..].
Qed.

Lemma RouteVars_live σ self r req :
  routes σ !! self = Some r ->
  RouteVars self req σ = callRouteVars (fwRoute r) req σ.
Proof.
  intros Hr. unfold RouteVars.
  by rewrite (bind_silent _ _ _ _ _ (loadRoute_live _ _ _ Hr)).
Qed.

Lemma runOps_keeps_status self os σ r :
  routes σ !! self = Some r ->
  defaultStatus r ≠ 0 ->
  Forall (fun o => match o with OpSetDefaultStatus _ => False | _ => True end)
    os ->
  exists r', routes (runOps self os σ) !! self = Some r' /\
    defaultStatus r' = defaultStatus r.
Proof.
  intros Hr Hnz Hos. revert σ r Hr Hnz.
  induction Hos as [|o os Ho _ IH]; intros σ r Hr Hnz; cbn.
  - by exists r.
  - destruct (runOp_route _ _ _ o Hr) as (r1 & H1 & _ & _ & _ & _ & Hst & _).
    assert (Hsame : defaultStatus r1 = defaultStatus r).
    { rewrite Hst. destruct o as [f|status|f]; [done|done|by case_decide]. }
    destruct (IH _ _ H1) as (r2 & H2 & Hst2); [congruence|].
    exists r2. split; [done|congruence].
Qed.

(** X5: [register] on a route that is not wired panics half way.  With a
    nil [router] it panics on the pointer, with a router whose adapter is
    nil on the interface; in both cases [NewRoute] is not called and the
    route stays without a handle, but the status has been resolved and
    the controller stored by then. *)
Theorem register_unwired_panics_half_way σ self r fn :
  routes σ !! self = Some r ->
  (routers σ !! router r = None \/
   exists rt, routers σ !! router r = Some rt /\
              engines σ !! fwRouter rt = None) ->
  let o := register self fn σ in
  (ret o = Panic NilPointer <-> routers σ !! router r = None) /\
  (ret o = Panic NilInterface <-> is_Some (routers σ !! router r)) /\
  calls o = [] /\
  engines (final o) = engines σ /\
  exists r',
    routes (final o) !! self = Some r' /\
    fwRoute r' = fwRoute r /\
    controllerFn r' = fn /\
    defaultStatus r' =
      if decide (defaultStatus r = 0) then methodDefault (method r)
      else defaultStatus r.
Proof.
  intros Hr Hun. cbn zeta. rewrite (register_run _ _ _ _ Hr). cbn zeta.
  assert (Hprep : fwRoute (prepared fn r) = fwRoute r /\
                  controllerFn (prepared fn r) = fn /\
                  defaultStatus (prepared fn r) =
                    if decide (defaultStatus r = 0)
                    then methodDefault (method r) else defaultStatus r).
  { unfold prepared, resolved. by case_decide. }
  destruct Hun as [Hrt|(rt & Hrt & He)]; rewrite Hrt; [|rewrite He]; cbn.
  - repeat split; try done; try (by intros [? ?]).
    exists (prepared fn r). by rewrite lookup_insert_eq.
  - repeat split; try done; try (by intros [? ?]).
    exists (prepared fn r). by rewrite lookup_insert_eq.
Qed.

(** X6: when the adapter's [NewRoute] panics, [register] panics with it:
    the one call has been made and the engine is as the adapter left it,
    the controller is stored, and [fwRoute] keeps the value it had. *)
Theorem register_adapter_panic σ self r rt e e' p fn :
  routes σ !! self = Some r ->
  routers σ !! router r = Some rt ->
  engines σ !! fwRouter rt = Some e ->
  fwNewRoute (method r) (path r) (HandleRequestOf self) e = (e', Panic p) ->
  let o := register self fn σ in
  ret o = Panic InCallee /\
  calls o =
    [CallNewRoute (fwRouter rt) (method r) (path r) (HandleRequestOf self)] /\
  engines (final o) !! fwRouter rt = Some e' /\
  exists r',
    routes (final o) !! self = Some r' /\
    fwRoute r' = fwRoute r /\ controllerFn r' = fn.
Proof.
  intros Hr Hrt He Hnew. cbn zeta.
  rewrite (register_run _ _ _ _ Hr). cbn zeta. rewrite Hrt, He, Hnew. cbn.
  rewrite !lookup_insert_eq. repeat split; try done.
  exists (prepared fn r). split; [done|].
  unfold prepared, resolved. by case_decide.
Qed.

(** X7: [register] stores the handle [NewRoute] returns, as it is, and
    [RouteVars] then answers with that handle: on a handle [h] it makes
    the one call [h.RouteVars(request)], returns what that returns and
    leaves the store alone; on a nil handle, which [register] accepts
    without a check, it panics on the nil interface. *)
Theorem register_then_RouteVars σ self r rt e e' fr fn req :
  routes σ !! self = Some r ->
  routers σ !! router r = Some rt ->
  engines σ !! fwRouter rt = Some e ->
  fwNewRoute (method r) (path r) (HandleRequestOf self) e = (e', Val fr) ->
  let o := register self fn σ in
  ret o = Val self /\
  (exists r', routes (final o) !! self = Some r' /\ fwRoute r' = fr) /\
  RouteVars self req (final o) =
    match fr with
    | Some h =>
        mkOutcome (fromCallee (fwRouteVars h req)) (final o)
          [CallRouteVars h req]
    | None => mkOutcome (Panic NilInterface) (final o) []
    end.
Proof.
  intros Hr Hrt He Hnew. cbn zeta.
  rewrite (register_run _ _ _ _ Hr). cbn zeta. rewrite Hrt, He, Hnew.
  cbn [ret final].
  set (σ' := setRoute self _ _).
  assert (Hr' : routes σ' !! self = Some (withFwRoute fr (prepared fn r)))
    by apply setRoute_lookup.
  repeat split.
  - by eexists.
  - rewrite (RouteVars_live _ _ _ req Hr'). by destruct fr.
Qed.

(** X8: [RouteVars] never changes the store and calls the adapter at most
    once, whatever the receiver and the handle are. *)
Theorem RouteVars_keeps_store σ self req :
  final (RouteVars self req σ) = σ /\
  (length (calls (RouteVars self req σ)) <= 1)%nat.
Proof.
  destruct (routes σ !! self) as [r|] eqn:Hr.
  - rewrite (RouteVars_live _ _ _ req Hr). unfold callRouteVars.
    destruct (fwRoute r); cbn; split; (done || lia).
  - unfold RouteVars. rewrite (accessor_nil _ _ _ Hr). cbn. split; (done || lia).
Qed.

(** X9: from registration to dispatch.  After [register(f)] on a route
    whose status was unset, the handler bound to the route calls [f], once,
    on a context of the request and the route that is seeded with 201 for
    the method "POST" and with 200 for any other; and so it does when
    [register] itself panicked at the router or at the adapter. *)
Theorem register_then_dispatch σ self r f w req :
  routes σ !! self = Some r ->
  defaultStatus r = 0 ->
  let σ' := final (register self (Some f) σ) in
  let status := if decide (method r = "POST") then 201 else 200 in
  calls (dispatch applyFn (HandleRequestOf self) w req σ') =
    [CallControllerFn f
       (mkRequestContext (mkResponseWriter w status) req self)].
Proof.
  intros Hr Hz. cbn zeta.
  destruct (runOp_route _ _ _ (OpRegister (Some f)) Hr)
    as (r' & Hr' & _ & _ & _ & _ & Hst & Hfn & _).
  cbn [runOp] in Hr'. cbn [dispatch].
  rewrite (handleRequest_live applyFn _ _ _ w req Hr'), Hfn, Hst.
  rewrite decide_True by done.
  unfold callControllerFn, newContextForRequest, newResponseWriter, methodDefault.
  by destruct (applyFn f _ _).
Qed.

(** X10: the controller, like the status, is read at dispatch time.  The
    handler bound to a route calls the function that the last
    [SetControllerFn] or [register] supplied, also when that came after
    the registration with the engine; if the last one supplied nil, the
    dispatch panics on the nil function and calls nothing. *)
Theorem dispatch_uses_last_controller σ self r pre o post g w req :
  routes σ !! self = Some r ->
  suppliesFn o = Some g ->
  Forall (fun o' => suppliesFn o' = None) post ->
  let out :=
    dispatch applyFn (HandleRequestOf self) w req
      (runOps self (pre ++ o :: post) σ) in
  match g with
  | Some f =>
      exists status,
        calls out =
          [CallControllerFn f
             (mkRequestContext (mkResponseWriter w status) req self)]
  | None => ret out = Panic NilFunc /\ calls out = []
  end.
Proof.
  intros Hr Ho Hpost. cbn zeta. rewrite runOps_app. cbn [runOps].
  destruct (runOps_live self pre σ r Hr) as (r0 & H0 & _).
  destruct (runOp_route _ _ _ o H0) as (r1 & H1 & _ & _ & _ & _ & _ & Hfn & _).
  destruct (runOps_keeps_fn self post _ r1 H1 Hpost) as (r' & Hr' & Hfn').
  assert (Hg : controllerFn r' = g).
  { rewrite Hfn', Hfn. destruct o; cbn in Ho; congruence. }
  cbn [dispatch]. rewrite (handleRequest_live applyFn _ _ _ w req Hr'), Hg.
  unfold callControllerFn. destruct g as [f|]; [|done].
  exists (defaultStatus r').
  unfold newContextForRequest, newResponseWriter. by destruct (applyFn f _ _).
Qed.

(** X11: an explicit status is not lost to a later registration.  Once
    [SetDefaultStatus(code)] has run with a nonzero [code], any calls of
    [register] and [SetControllerFn] after it leave [defaultStatus] at
    [code]. *)
Theorem explicit_status_survives σ self r pre code post :
  routes σ !! self = Some r ->
  code ≠ 0 ->
  Forall (fun o => match o with OpSetDefaultStatus _ => False | _ => True end)
    post ->
  exists r',
    routes (runOps self (pre ++ OpSetDefaultStatus code :: post) σ) !! self
    = Some r' /\
    defaultStatus r' = code.
Proof.
  intros Hr Hnz Hpost. rewrite runOps_app. cbn [runOps].
  destruct (runOps_live self pre σ r Hr) as (r0 & H0 & _).
  destruct (runOp_route _ _ _ (OpSetDefaultStatus code) H0)
    as (r1 & H1 & _ & _ & _ & _ & Hst & _).
  destruct (runOps_keeps_status self post _ r1 H1) as (r' & Hr' & Hst');
    [congruence|done|].
  exists r'. split; [done|congruence].
Qed.

End RouteProperties.

(** * Properties of the example application *)

Section ExampleProperties.

Import Example.

Context `{types : Types}.
Context {framework : Framework}.

Implicit Types (σ : Process) (ctx : Ctx) (rctx : RCtx).

(** ** Running handler bodies *)

Lemma kbind_done {A B} (m : K A) (f : A -> K B) σ a σ' cs :
  m σ = mkRun (Done a) σ' cs ->
  (m ≫= f) σ =
  mkRun (result (f a σ')) (after (f a σ')) (cs ++ trace (f a σ')).
Proof. intros Hm. unfold mbind, K_bind, kbind. by rewrite Hm. Qed.

Lemma kbind_crashed {A B} (m : K A) (f : A -> K B) σ c σ' cs :
  m σ = mkRun (Crashed c) σ' cs ->
  (m ≫= f) σ = mkRun (Crashed c) σ' cs.
Proof. intros Hm. unfold mbind, K_bind, kbind. by rewrite Hm. Qed.

Lemma call_val {A} (c : FwCall) (f : FwState -> FwState * value A) σ s' a :
  f (fwState σ) = (s', Val a) ->
  call c f σ = mkRun (Done a) (mkProcess (kittens σ) s') [c].
Proof. intros Hf. unfold call. by rewrite Hf. Qed.

Lemma call_panic {A} (c : FwCall) (f : FwState -> FwState * value A) σ s' p :
  f (fwState σ) = (s', Panic p) ->
  call c f σ =
  mkRun (Crashed CrashInFramework) (mkProcess (kittens σ) s') [c].
Proof. intros Hf. unfold call. by rewrite Hf. Qed.

Lemma quiet_call {A} c (f : FwState -> FwState * value A) : quiet (call c f).
Proof. intros σ. unfold call. by destruct (f (fwState σ)) as [s' v]. Qed.

Lemma quiet_ret {A} (a : A) : quiet (mret a).
Proof. by intros σ. Qed.

Lemma quiet_stop {A} c : quiet (@stop _ A c).
Proof. by intros σ. Qed.

Lemma quiet_lookup key : quiet (lookupKitten key).
Proof. by intros σ. Qed.

Lemma quiet_bind {A B} (m : K A) (f : A -> K B) :
  quiet m -> (forall a, quiet (f a)) -> quiet (m ≫= f).
Proof.
  intros Hm Hf σ. unfold mbind, K_bind, kbind.
  specialize (Hm σ). destruct (m σ) as [[a|c] σ' cs]; cbn in *; [|done].
  by rewrite (Hf a σ').
Qed.

Ltac fw_step :=
  match goal with
  | |- context [match ?x with (_, _) => _ end] =>
      destruct x as [? [?|?]] eqn:?; cbn
  | |- context [match ?x with Some _ => _ | None => _ end] =>
      destruct x eqn:?; cbn
  end.

Ltac fw_unfold :=
  unfold AddKitten, GetKitten, RequestContextOf, ReadBody, GenUUID,
    UUIDFromString, RouteVar, LogInfof, NewError, WriteResponse,
    kittenOfBody, lookupKitten, storeKitten, stop, call,
    mbind, K_bind, kbind, mret, K_ret, kreturn;
  cbn.

(** ** The handlers *)

(** X12: [GetKitten] never changes the map of kittens, whatever the
    framework answers and wherever the handler stops. *)
Theorem GetKitten_keeps_kittens ctx σ :
  kittens (after (GetKitten ctx σ)) = kittens σ.
Proof.
  revert σ. change (quiet (GetKitten ctx)). unfold GetKitten.
  apply quiet_bind; [apply quiet_call|intros rctx].
  apply quiet_bind; [apply quiet_call|intros idok].
  apply quiet_bind; [apply quiet_call|intros [u|]].
  - apply quiet_bind; [apply quiet_lookup|intros [k|]].
    + apply quiet_call.
    + apply quiet_bind; [apply quiet_call|intros e]. apply quiet_call.
  - apply quiet_bind; [apply quiet_call|intros e]. apply quiet_call.
Qed.

(** X13: a handler writes at most one response, and it does not return
    without having written one: a run of [GetKitten] or [AddKitten] that
    returns has called [WriteResponse] exactly once. *)
Theorem handlers_respond_once ctx σ :
  (length (written (trace (GetKitten ctx σ))) <= 1)%nat /\
  (length (written (trace (AddKitten ctx σ))) <= 1)%nat /\
  (result (GetKitten ctx σ) = Done tt ->
   length (written (trace (GetKitten ctx σ))) = 1%nat) /\
  (result (AddKitten ctx σ) = Done tt ->
   length (written (trace (AddKitten ctx σ))) = 1%nat).
Proof.
  repeat split.
  - fw_unfold. repeat fw_step; lia.
  - fw_unfold. repeat fw_step; lia.
  - fw_unfold. repeat fw_step; done.
  - fw_unfold. repeat fw_step; done.
Qed.

(** X14: what [GetKitten] answers.  When the framework has given the
    request context, the route variable "id" and the parse of it: a body
    is written exactly when the id parses and its string is a key of the
    map, and it is the body of the kitten stored there; an error of class
    [ErrInvalidKittenID] is made exactly when the id does not parse, one
    of class [ErrKittenNotFound] exactly when it parses and is not a
    key. *)
Theorem GetKitten_answers ctx σ s1 rctx s2 id ok s3 uuid :
  fwRequestContext ctx (fwState σ) = (s1, Val rctx) ->
  fwRouteVar rctx "id" s1 = (s2, Val (id, ok)) ->
  fwUUIDFromString id s2 = (s3, Val uuid) ->
  let found := uuid ≫= fun u => kittens σ !! uuidString u in
  bodiesWritten (trace (GetKitten ctx σ)) =
    match found with
    | Some k => [mkCreateKittenBody (mkKittenData k)]
    | None => []
    end /\
  errorsMade (trace (GetKitten ctx σ)) =
    match uuid, found with
    | None, _ => [ErrInvalidKittenID]
    | Some _, None => [ErrKittenNotFound]
    | Some _, Some _ => []
    end.
Proof.
  intros H1 H2 H3. fw_unfold. rewrite H1. cbn. rewrite H2. cbn.
  rewrite H3. cbn. destruct uuid as [u|]; cbn.
  - destruct (kittens σ !! uuidString u) as [k|]; cbn.
    + by fw_step.
    + repeat fw_step; done.
  - repeat fw_step; done.
Qed.

(** X15: what [AddKitten] stores.  When the framework has given the
    request context, a body and an id, the kitten of the body is in the
    map under the string of the new id, with that id in place of whatever
    id the body carried; every other key is as it was.  The kitten is
    stored before the handler logs and responds: it is in the map also
    when one of those calls panics, and the body written by a run that
    returns is the stored kitten. *)
Theorem AddKitten_stores ctx σ s1 rctx s2 body s3 u :
  fwRequestContext ctx (fwState σ) = (s1, Val rctx) ->
  fwReadBody ctx s1 = (s2, Val (Some body)) ->
  fwGenUUID s2 = (s3, Val (Some u)) ->
  let k := KittenOf (Data body) in
  let kitten := mkKitten (Some u) (Name k) (Color k) in
  let r := AddKitten ctx σ in
  kittens (after r) = <[uuidString u := kitten]> (kittens σ) /\
  (forall b, b ∈ bodiesWritten (trace r) ->
             b = mkCreateKittenBody (mkKittenData kitten)) /\
  (result r = Done tt ->
   bodiesWritten (trace r) = [mkCreateKittenBody (mkKittenData kitten)]) /\
  errorsMade (trace r) = [].
Proof.
  intros H1 H2 H3. fw_unfold. rewrite H1. cbn. rewrite H2. cbn.
  rewrite H3. cbn.
  repeat fw_step; repeat split; try done; intros b Hb;
    try (by apply elem_of_nil in Hb);
    by apply list_elem_of_singleton in Hb.
Qed.

(** X16: when [AddKitten] stores nothing.  If the framework has no id to
    give, the handler panics with "uuid generation failed"; if the body
    pointer comes back nil, it panics on the pointer before it asks for an
    id.  In both cases the map is as it was and nothing is logged or
    written. *)
Theorem AddKitten_stores_nothing ctx σ s1 rctx s2 body_obj :
  fwRequestContext ctx (fwState σ) = (s1, Val rctx) ->
  fwReadBody ctx s1 = (s2, Val body_obj) ->
  (body_obj = None \/ (fwGenUUID s2).2 = Val None) ->
  let r := AddKitten ctx σ in
  result r =
    Crashed (match body_obj with
             | None => CrashNilPointer
             | Some _ => CrashMessage "uuid generation failed"
             end) /\
  kittens (after r) = kittens σ /\
  trace r =
    [CRequestContext ctx; CReadBody ctx] ++
    match body_obj with None => [] | Some _ => [CGenUUID] end.
Proof.
  intros H1 H2 Hno. fw_unfold. rewrite H1. cbn. rewrite H2. cbn.
  destruct body_obj as [body|]; cbn; [|done].
  destruct Hno as [?|Hno]; [done|].
  destruct (fwGenUUID s2) as [s3 v]. cbn in Hno. by subst v.
Qed.

(** X17: both handlers keep the map well keyed: if every kitten is stored
    under the string of its own id before a run of [AddKitten] or
    [GetKitten], so it is after the run, whatever the framework answers. *)
Theorem handlers_keep_wellKeyed ctx σ :
  wellKeyed (kittens σ) ->
  wellKeyed (kittens (after (AddKitten ctx σ))) /\
  wellKeyed (kittens (after (GetKitten ctx σ))).
Proof.
  intros Hwk. split; [|fw_unfold; by repeat fw_step].
  fw_unfold. repeat fw_step; try done.
  all: intros key k Hk; cbn in Hk;
    destruct (decide (uuidString u = key)) as [<-|Hne];
    [ rewrite lookup_insert_eq in Hk; injection Hk as <-; by eexists
    | rewrite lookup_insert_ne in Hk by done; by apply Hwk ].
Qed.

(** X18: a kitten that [AddKitten] stored is the one [GetKitten] answers
    with.  After a run of [AddKitten] that was given a body and the id
    [u], a [GetKitten] whose route variable parses to an id with the same
    string writes the body of that kitten, with the name and the colour
    of the posted body and the id [u], and makes no error. *)
Theorem AddKitten_then_GetKitten
    ctx σ s1 rctx s2 body s3 u ctx' t1 rctx' t2 id ok t3 u' :
  fwRequestContext ctx (fwState σ) = (s1, Val rctx) ->
  fwReadBody ctx s1 = (s2, Val (Some body)) ->
  fwGenUUID s2 = (s3, Val (Some u)) ->
  let σ' := after (AddKitten ctx σ) in
  fwRequestContext ctx' (fwState σ') = (t1, Val rctx') ->
  fwRouteVar rctx' "id" t1 = (t2, Val (id, ok)) ->
  fwUUIDFromString id t2 = (t3, Val (Some u')) ->
  uuidString u' = uuidString u ->
  let k := KittenOf (Data body) in
  bodiesWritten (trace (GetKitten ctx' σ')) =
    [mkCreateKittenBody
       (mkKittenData (mkKitten (Some u) (Name k) (Color k)))] /\
  errorsMade (trace (GetKitten ctx' σ')) = [].
Proof.
  intros H1 H2 H3 σ' G1 G2 G3 Hsame k.
  assert (Hin : kittens σ' !! uuidString u'
                = Some (mkKitten (Some u) (Name k) (Color k))).
  { subst σ'. rewrite Hsame. clear G1.
    fw_unfold. rewrite H1. cbn. rewrite H2. cbn. rewrite H3. cbn.
    repeat fw_step; by rewrite lookup_insert_eq. }
  fw_unfold. rewrite G1. cbn. rewrite G2. cbn. rewrite G3. cbn.
  rewrite Hin. cbn. by fw_step.
Qed.

End ExampleProperties.

(** * The claims on the small instance *)

Import Demo.

Lemma register_resolves_defaultStatus_witness :
  routes start !! 1%nat = Some (blank "POST" "/kittens") /\
  exists r',
    routes (final (register 1%nat (ctl 7) start)) !! 1%nat = Some r' /\
    defaultStatus r' = 201.
Proof.
  split; [reflexivity|].
  destruct (register_resolves_defaultStatus start 1%nat
              (blank "POST" "/kittens") (ctl 7) eq_refl)
    as (r' & Hr' & Hpost & _ & _).
  exists r'. split; [exact Hr'|]. apply Hpost; reflexivity.
Defined.


(** C3 as stated fails: [SetDefaultStatus(0)] after [register] leaves
    [defaultStatus] at 0, and the next dispatch hands the controller a
    context seeded with 0. *)
Lemma registered_status_zero_counterexample :
  statusAt 1%nat zeroed = Some 0 /\
  calls (handleRequest applyFn 1%nat tt [] zeroed) =
    [CallControllerFn 7%nat (mkRequestContext (mkResponseWriter tt 0) [] 1%nat)].
Proof. split; reflexivity. Qed.

Lemma registered_status_nonzero_witness :
  routes start !! 2%nat = Some (blank "GET" "/kittens/{id}") /\
  Forall (fun o => setsStatusZero o = false)
    [OpSetDefaultStatus 204; OpRegister None] /\
  exists r',
    routes (runOps 2%nat
              [OpSetDefaultStatus 0; OpRegister (ctl 7);
               OpSetDefaultStatus 204; OpRegister None] start) !! 2%nat
    = Some r' /\
    defaultStatus r' ≠ 0.
Proof.
  split; [reflexivity|].
  assert (Hpost : Forall (fun o => setsStatusZero o = false)
                    [OpSetDefaultStatus 204; OpRegister None])
    by (repeat constructor).
  split; [exact Hpost|].
  destruct (registered_status_nonzero start 2%nat
              (blank "GET" "/kittens/{id}") [OpSetDefaultStatus 0] (ctl 7)
              [OpSetDefaultStatus 204; OpRegister None] tt [] eq_refl Hpost)
    as (r' & Hr' & Hnz & _).
  exists r'. split; [exact Hr'|exact Hnz].
Defined.

Lemma handleRequest_calls_controller_once_witness :
  routes registered !! 1%nat = Some kittens /\
  controllerFn kittens = Some 7%nat /\
  calls (handleRequest applyFn 1%nat tt [] registered) =
    [CallControllerFn 7%nat
       (mkRequestContext (mkResponseWriter tt 201) [] 1%nat)] /\
  app (final (handleRequest applyFn 1%nat tt [] registered)) = [(7%nat, 201)].
Proof.
  split; [reflexivity|]. split; [reflexivity|].
  destruct (handleRequest_calls_controller_once applyFn registered 1%nat
              kittens 7%nat tt [] eq_refl eq_refl) as (Hc & Hf & _).
  split; [exact Hc|]. rewrite Hf. reflexivity.
Defined.

Lemma register_twice_registers_twice_witness :
  routes start !! 2%nat = Some (blank "GET" "/kittens/{id}") /\
  routers start !! 0%nat = Some (mkRouter 0%nat "") /\
  engines start !! 0%nat = Some [] /\
  engines (final (register 2%nat (ctl 8)
                    (final (register 2%nat (ctl 8) start)))) !! 0%nat =
    Some [("GET", "/kittens/{id}", HandleRequestOf 2%nat);
          ("GET", "/kittens/{id}", HandleRequestOf 2%nat)].
Proof.
  split; [reflexivity|]. split; [reflexivity|]. split; [reflexivity|].
  destruct (register_twice_registers_twice start 2%nat
              (blank "GET" "/kittens/{id}") (mkRouter 0%nat "") []
              (ctl 8) (ctl 8) eq_refl eq_refl eq_refl)
    as (_ & _ & _ & He2 & _).
  exact He2.
Defined.

Lemma RouteVars_before_register_panics_witness :
  routes start !! 1%nat = Some (blank "POST" "/kittens") /\
  fwRoute (blank "POST" "/kittens") = None /\
  Forall (fun o => isRegister o = false)
    [OpSetControllerFn (ctl 7); OpSetDefaultStatus 202] /\
  ret (RouteVars 1%nat [("id", "abc")]
         (runOps 1%nat [OpSetControllerFn (ctl 7); OpSetDefaultStatus 202]
            start))
  = Panic NilInterface.
Proof.
  split; [reflexivity|]. split; [reflexivity|].
  assert (Hos : Forall (fun o => isRegister o = false)
                  [OpSetControllerFn (ctl 7); OpSetDefaultStatus 202])
    by (repeat constructor).
  split; [exact Hos|].
  rewrite (RouteVars_before_register_panics start 1%nat
             (blank "POST" "/kittens") _ [("id", "abc")] eq_refl eq_refl Hos).
  reflexivity.
Defined.

Lemma handleRequest_nil_controller_panics_witness :
  routes start !! 1%nat = Some (blank "POST" "/kittens") /\
  controllerFn (blank "POST" "/kittens") = None /\
  handleRequest applyFn 1%nat tt [] start = mkOutcome (Panic NilFunc) start [].
Proof.
  split; [reflexivity|]. split; [reflexivity|].
  exact (proj1 (proj2 (handleRequest_nil_controller_panics applyFn start 1%nat
                         (blank "POST" "/kittens") tt [] eq_refl) eq_refl)).
Defined.

Lemma controllerFn_is_last_supplied_witness :
  routes start !! 1%nat = Some (blank "POST" "/kittens") /\
  suppliesFn (OpSetControllerFn (ctl 9)) = Some (ctl 9) /\
  Forall (fun o' => suppliesFn o' = None) [OpSetDefaultStatus 204] /\
  exists r',
    routes (runOps 1%nat
              [OpRegister (ctl 7); OpSetControllerFn (ctl 9);
               OpSetDefaultStatus 204] start) !! 1%nat = Some r' /\
    controllerFn r' = ctl 9.
Proof.
  split; [reflexivity|]. split; [reflexivity|].
  assert (Hpost : Forall (fun o' => suppliesFn o' = None)
                    [OpSetDefaultStatus 204])
    by (repeat constructor).
  split; [exact Hpost|].
  exact (controllerFn_is_last_supplied start 1%nat (blank "POST" "/kittens")
           [OpRegister (ctl 7)] (OpSetControllerFn (ctl 9))
           [OpSetDefaultStatus 204] (ctl 9) eq_refl eq_refl Hpost).
Defined.

Lemma accessors_read_only_witness :
  routes start !! 2%nat = Some (blank "GET" "/kittens/{id}") /\
  Method 2%nat start = mkOutcome (Val "GET") start [] /\
  FullPath 2%nat start = mkOutcome (Val "/kittens/{id}") start [].
Proof.
  split; [reflexivity|].
  destruct (accessors_read_only start 2%nat (blank "GET" "/kittens/{id}")
              eq_refl) as (Hm & _ & Hf & _).
  split; [exact Hm|exact Hf].
Defined.

Lemma explicit_zero_status_is_unset_witness :
  routes start !! 1%nat = Some (blank "POST" "/kittens") /\
  exists r',
    routes (final (register 1%nat (ctl 7)
                     (final (SetDefaultStatus 1%nat 0 start)))) !! 1%nat
    = Some r' /\
    defaultStatus r' = 201.
Proof.
  split; [reflexivity|].
  destruct (explicit_zero_status_is_unset start 1%nat
              (blank "POST" "/kittens") (ctl 7) eq_refl)
    as ((r' & Hr' & Hst) & _).
  exists r'. split; [exact Hr'|exact Hst].
Defined.

(** * The further properties on the small instance *)

Lemma nil_receiver_panics_witness :
  routes start !! 5%nat = None /\
  register 5%nat (ctl 7) start = mkOutcome (Panic NilPointer) start [] /\
  handleRequest applyFn 5%nat tt [] start =
    mkOutcome (Panic NilPointer) start [].
Proof.
  split; [reflexivity|].
  destruct (nil_receiver_panics applyFn start 5%nat (ctl 7) 0 tt [] eq_refl)
    as (_ & _ & _ & _ & _ & _ & _ & Hreg & Hh).
  split; [exact Hreg|exact Hh].
Defined.

Lemma setters_chain_and_commute_witness :
  is_Some (routes start !! 1%nat) /\
  ret (SetControllerFn 1%nat (ctl 7) start) = Val 1%nat /\
  ret (SetDefaultStatus 1%nat 202 start) = Val 1%nat.
Proof.
  assert (Hsome : is_Some (routes start !! 1%nat)) by (eexists; reflexivity).
  split; [exact Hsome|].
  exact (proj2 (setters_chain_and_commute start 1%nat (ctl 7) 202) Hsome).
Defined.

Lemma operations_touch_only_their_route_witness :
  2%nat ≠ 1%nat /\
  routes (runOps 1%nat [OpRegister (ctl 7); OpSetDefaultStatus 202] start)
    !! 2%nat
  = Some (blank "GET" "/kittens/{id}").
Proof.
  assert (Hne : 2%nat ≠ 1%nat) by discriminate.
  split; [exact Hne|].
  rewrite (proj1 (operations_touch_only_their_route start 1%nat
                    [OpRegister (ctl 7); OpSetDefaultStatus 202] 2%nat Hne)).
  reflexivity.
Defined.

Lemma identity_fields_never_change_witness :
  routes start !! 2%nat = Some (blank "GET" "/kittens/{id}") /\
  exists r',
    routes (runOps 2%nat [OpSetDefaultStatus 204; OpRegister (ctl 8)] start)
      !! 2%nat = Some r' /\
    method r' = "GET" /\ path r' = "/kittens/{id}".
Proof.
  split; [reflexivity|].
  destruct (identity_fields_never_change start 2%nat
              (blank "GET" "/kittens/{id}")
              [OpSetDefaultStatus 204; OpRegister (ctl 8)] eq_refl)
    as (r' & Hr' & _ & Hm & Hp & _).
  exists r'. split; [exact Hr'|]. split; [exact Hm|exact Hp].
Defined.

(** A route whose router is nil, and a route with an empty pattern, which
    the engine refuses. *)
Lemma register_unwired_panics_half_way_witness :
  let σ := setRoute 3%nat (mkRoute None 9%nat "POST" "/x" "/x" 0 None) start in
  routes σ !! 3%nat = Some (mkRoute None 9%nat "POST" "/x" "/x" 0 None) /\
  routers σ !! 9%nat = None /\
  ret (register 3%nat (ctl 7) σ) = Panic NilPointer /\
  calls (register 3%nat (ctl 7) σ) = [] /\
  exists r',
    routes (final (register 3%nat (ctl 7) σ)) !! 3%nat = Some r' /\
    fwRoute r' = None /\ controllerFn r' = ctl 7 /\ defaultStatus r' = 201.
Proof.
  cbn zeta. split; [reflexivity|]. split; [reflexivity|].
  destruct (register_unwired_panics_half_way
              (setRoute 3%nat (mkRoute None 9%nat "POST" "/x" "/x" 0 None) start)
              3%nat (mkRoute None 9%nat "POST" "/x" "/x" 0 None) (ctl 7)
              eq_refl (or_introl eq_refl))
    as (Hp & _ & Hc & _ & r' & Hr' & Hfw & Hfn & Hst).
  split; [apply Hp; reflexivity|]. split; [exact Hc|].
  exists r'. repeat split; [exact Hr'|exact Hfw|exact Hfn|exact Hst].
Defined.

Lemma register_adapter_panic_witness :
  let σ := setRoute 3%nat (blank "GET" "") start in
  routes σ !! 3%nat = Some (blank "GET" "") /\
  routers σ !! 0%nat = Some (mkRouter 0%nat "") /\
  engines σ !! 0%nat = Some [] /\
  fwNewRoute "GET" "" (HandleRequestOf 3%nat) [] = ([], Panic InCallee) /\
  ret (register 3%nat (ctl 7) σ) = Panic InCallee /\
  engines (final (register 3%nat (ctl 7) σ)) !! 0%nat = Some [].
Proof.
  cbn zeta. do 4 (split; [reflexivity|]).
  assert (Hnew : fwNewRoute (method (blank "GET" "")) (path (blank "GET" ""))
                   (HandleRequestOf 3%nat) ([] : Engine)
                 = (([] : Engine), Panic InCallee)) by reflexivity.
  destruct (register_adapter_panic (setRoute 3%nat (blank "GET" "") start)
              3%nat (blank "GET" "") (mkRouter 0%nat "") [] [] InCallee (ctl 7)
              eq_refl eq_refl eq_refl Hnew)
    as (Hret & _ & He & _).
  split; [exact Hret|exact He].
Defined.

Lemma register_then_RouteVars_witness :
  routes start !! 2%nat = Some (blank "GET" "/kittens/{id}") /\
  routers start !! 0%nat = Some (mkRouter 0%nat "") /\
  engines start !! 0%nat = Some [] /\
  fwNewRoute "GET" "/kittens/{id}" (HandleRequestOf 2%nat) [] =
    ([("GET", "/kittens/{id}", HandleRequestOf 2%nat)],
     Val (Some "/kittens/{id}")) /\
  ret (RouteVars 2%nat [("id", "abc")]
         (final (register 2%nat (ctl 8) start)))
  = Val (list_to_map [("id", "abc")]).
Proof.
  do 4 (split; [reflexivity|]).
  assert (Hnew : fwNewRoute (method (blank "GET" "/kittens/{id}"))
                   (path (blank "GET" "/kittens/{id}"))
                   (HandleRequestOf 2%nat) ([] : Engine)
                 = (([("GET", "/kittens/{id}", HandleRequestOf 2%nat)] : Engine),
                    Val (Some "/kittens/{id}"))) by reflexivity.
  destruct (register_then_RouteVars start 2%nat (blank "GET" "/kittens/{id}")
              (mkRouter 0%nat "") [] _ _ (ctl 8) [("id", "abc")]
              eq_refl eq_refl eq_refl Hnew)
    as (_ & _ & Hvars).
  rewrite Hvars. reflexivity.
Defined.

Lemma register_then_dispatch_witness :
  routes start !! 1%nat = Some (blank "POST" "/kittens") /\
  defaultStatus (blank "POST" "/kittens") = 0 /\
  calls (dispatch applyFn (HandleRequestOf 1%nat) tt []
           (final (register 1%nat (Some 7%nat) start))) =
    [CallControllerFn 7%nat
       (mkRequestContext (mkResponseWriter tt 201) [] 1%nat)].
Proof.
  split; [reflexivity|]. split; [reflexivity|].
  exact (register_then_dispatch applyFn start 1%nat (blank "POST" "/kittens")
           7%nat tt [] eq_refl eq_refl).
Defined.

Lemma dispatch_uses_last_controller_witness :
  routes start !! 1%nat = Some (blank "POST" "/kittens") /\
  suppliesFn (OpSetControllerFn (ctl 9)) = Some (ctl 9) /\
  Forall (fun o' => suppliesFn o' = None) [OpSetDefaultStatus 204] /\
  exists status,
    calls (dispatch applyFn (HandleRequestOf 1%nat) tt []
             (runOps 1%nat
                [OpRegister (ctl 7); OpSetControllerFn (ctl 9);
                 OpSetDefaultStatus 204] start)) =
      [CallControllerFn 9%nat
         (mkRequestContext (mkResponseWriter tt status) [] 1%nat)].
Proof.
  split; [reflexivity|]. split; [reflexivity|].
  assert (Hpost : Forall (fun o' => suppliesFn o' = None)
                    [OpSetDefaultStatus 204])
    by (repeat constructor).
  split; [exact Hpost|].
  exact (dispatch_uses_last_controller applyFn start 1%nat
           (blank "POST" "/kittens") [OpRegister (ctl 7)]
           (OpSetControllerFn (ctl 9)) [OpSetDefaultStatus 204]
           (Some 9%nat) tt [] eq_refl eq_refl Hpost).
Defined.

Lemma explicit_status_survives_witness :
  routes start !! 1%nat = Some (blank "POST" "/kittens") /\
  202 ≠ 0 /\
  Forall (fun o => match o with OpSetDefaultStatus _ => False | _ => True end)
    [OpRegister (ctl 7); OpSetControllerFn (ctl 9); OpRegister (ctl 7)] /\
  exists r',
    routes (runOps 1%nat
              [OpSetDefaultStatus 202; OpRegister (ctl 7);
               OpSetControllerFn (ctl 9); OpRegister (ctl 7)] start) !! 1%nat
    = Some r' /\
    defaultStatus r' = 202.
Proof.
  split; [reflexivity|].
  assert (Hnz : 202 ≠ 0) by discriminate.
  split; [exact Hnz|].
  assert (Hpost : Forall (fun o => match o with
                                   | OpSetDefaultStatus _ => False
                                   | _ => True
                                   end)
                    [OpRegister (ctl 7); OpSetControllerFn (ctl 9);
                     OpRegister (ctl 7)])
    by (repeat constructor).
  split; [exact Hpost|].
  exact (explicit_status_survives start 1%nat (blank "POST" "/kittens") []
           202 [OpRegister (ctl 7); OpSetControllerFn (ctl 9);
                OpRegister (ctl 7)] eq_refl Hnz Hpost).
Defined.

(** * The example's properties on the small framework *)

Import Example Example.Toy.

Lemma handlers_respond_once_witness :
  result (GetKitten (get "kkk") stocked) = Done tt /\
  length (written (trace (GetKitten (get "kkk") stocked))) = 1%nat.
Proof.
  assert (Hdone : result (GetKitten (get "kkk") stocked) = Done tt)
    by reflexivity.
  split; [exact Hdone|].
  destruct (handlers_respond_once (get "kkk") stocked) as (_ & _ & Hget & _).
  exact (Hget Hdone).
Defined.

Lemma GetKitten_answers_witness :
  fwRequestContext (get "kkk") (fwState stocked) = ([None], Val (get "kkk")) /\
  fwRouteVar (get "kkk") "id" [None] = ([None], Val ("kkk", true)) /\
  fwUUIDFromString "kkk" [None] = ([None], Val (Some 2%nat)) /\
  bodiesWritten (trace (GetKitten (get "kkk") stocked)) =
    [mkCreateKittenBody (mkKittenData tom)] /\
  errorsMade (trace (GetKitten (get "kkk") stocked)) = [].
Proof.
  do 3 (split; [reflexivity|]).
  exact (GetKitten_answers (get "kkk") stocked [None] (get "kkk") [None]
           "kkk" true [None] (Some 2%nat) eq_refl eq_refl eq_refl).
Defined.

Lemma AddKitten_stores_witness :
  fwRequestContext (post "Tom" "grey") (fwState fresh) =
    ([Some 2%nat; None], Val (post "Tom" "grey")) /\
  fwReadBody (post "Tom" "grey") [Some 2%nat; None] =
    ([Some 2%nat; None],
     Val (Some (mkCreateKittenBody
                  (mkKittenData (mkKitten None "Tom" "grey"))))) /\
  fwGenUUID [Some 2%nat; None] = ([None], Val (Some 2%nat)) /\
  kittens (after (AddKitten (post "Tom" "grey") fresh)) = <["kkk" := tom]> ∅.
Proof.
  do 3 (split; [reflexivity|]).
  exact (proj1 (AddKitten_stores (post "Tom" "grey") fresh
                  [Some 2%nat; None] (post "Tom" "grey") [Some 2%nat; None]
                  (mkCreateKittenBody
                     (mkKittenData (mkKitten None "Tom" "grey")))
                  [None] 2%nat eq_refl eq_refl eq_refl)).
Defined.

Lemma AddKitten_stores_nothing_witness :
  fwRequestContext (post "Tim" "red") (fwState stocked) =
    ([None], Val (post "Tim" "red")) /\
  fwReadBody (post "Tim" "red") [None] =
    ([None],
     Val (Some (mkCreateKittenBody
                  (mkKittenData (mkKitten None "Tim" "red"))))) /\
  (fwGenUUID [None]).2 = Val None /\
  result (AddKitten (post "Tim" "red") stocked) =
    Crashed (CrashMessage "uuid generation failed") /\
  kittens (after (AddKitten (post "Tim" "red") stocked)) = kittens stocked.
Proof.
  assert (H1 : fwRequestContext (post "Tim" "red") (fwState stocked) =
               (([None] : FwState), Val (post "Tim" "red"))) by reflexivity.
  assert (H2 : fwReadBody (post "Tim" "red") ([None] : FwState) =
               (([None] : FwState),
                Val (Some (mkCreateKittenBody
                             (mkKittenData (mkKitten None "Tim" "red"))))))
    by reflexivity.
  assert (H3 : (fwGenUUID ([None] : FwState)).2 = Val None) by reflexivity.
  split; [exact H1|]. split; [exact H2|]. split; [exact H3|].
  destruct (AddKitten_stores_nothing (post "Tim" "red") stocked _ _ _ _
              H1 H2 (or_intror H3))
    as (Hres & Hkit & _).
  split; [exact Hres|exact Hkit].
Defined.

Lemma handlers_keep_wellKeyed_witness :
  wellKeyed (kittens fresh) /\
  wellKeyed (kittens (after (AddKitten (post "Tom" "grey") fresh))).
Proof.
  assert (Hwk : wellKeyed (kittens fresh)).
  { intros key k Hk. cbn in Hk. rewrite lookup_empty in Hk. discriminate Hk. }
  split; [exact Hwk|].
  exact (proj1 (handlers_keep_wellKeyed (post "Tom" "grey") fresh Hwk)).
Defined.

Lemma AddKitten_then_GetKitten_witness :
  fwRequestContext (post "Tom" "grey") (fwState fresh) =
    ([Some 2%nat; None], Val (post "Tom" "grey")) /\
  fwReadBody (post "Tom" "grey") [Some 2%nat; None] =
    ([Some 2%nat; None],
     Val (Some (mkCreateKittenBody
                  (mkKittenData (mkKitten None "Tom" "grey"))))) /\
  fwGenUUID [Some 2%nat; None] = ([None], Val (Some 2%nat)) /\
  fwRequestContext (get "kkk") (fwState stocked) = ([None], Val (get "kkk")) /\
  fwRouteVar (get "kkk") "id" [None] = ([None], Val ("kkk", true)) /\
  fwUUIDFromString "kkk" [None] = ([None], Val (Some 2%nat)) /\
  uuidString 2%nat = uuidString 2%nat /\
  bodiesWritten (trace (GetKitten (get "kkk") stocked)) =
    [mkCreateKittenBody (mkKittenData tom)].
Proof.
  do 7 (split; [reflexivity|]).
  exact (proj1 (AddKitten_then_GetKitten (post "Tom" "grey") fresh
                  [Some 2%nat; None] (post "Tom" "grey") [Some 2%nat; None]
                  (mkCreateKittenBody
                     (mkKittenData (mkKitten None "Tom" "grey")))
                  [None] 2%nat (get "kkk") [None] (get "kkk") [None]
                  "kkk" true [None] 2%nat
                  eq_refl eq_refl eq_refl eq_refl eq_refl eq_refl eq_refl)).
Defined.
